(** * skorch/probabilistic.py: Gaussian Process estimators

    A shallow embedding of the GPyTorch integration layer of skorch.  The
    module is glue code over three collaborators (the [NeuralNet] base class,
    torch/gpytorch, and numpy).  The methods written in [probabilistic.py] are
    transcribed statement by statement; what they call in the collaborators is
    either a parameter of the development ([NeuralNet] methods, torch modules)
    or a small executable model of the library function ([str.find],
    [re.search], [np.concatenate], [np.hstack]).

    Conventions.
    - A Python call that may raise returns a [result]; a method that may also
      mutate [self] is a function [net -> result A * net].
    - A Python [str] is a [list ascii] where it is sliced and searched, and a
      [string] where it is only a message.
    - Array elements are rationals ([Qc]), the values the floats of an array
      stand for; not-a-number and the infinities are not modelled.  numpy
      computes in the dtype of its arrays: what the classifier computes on
      probabilities goes through [dtype_round], the rounding of that dtype,
      which is a parameter.  The tensor arithmetic of [confidence_region]
      is exact. *)

From Stdlib Require Import ZArith QArith Qcanon Qround Qabs Qpower.
From Stdlib Require Import List String Ascii Bool Lia.
From stdpp Require Import base option list numbers strings gmap.

Set Default Proof Using "Type".
Set Warnings "-register-all".
Local Open Scope string_scope.
Local Open Scope list_scope.

(** ** Python results and exceptions *)

Inductive exn : Type :=
| AttributeError (msg : string)
| NotImplementedError (msg : string)
| NotInitializedError (msg : string)
| TypeError (msg : string)
| ValueError (msg : string)
| KeyError (key : string)
| IndexError (msg : string).

Inductive result (A : Type) : Type :=
| Ok (a : A)
| Raise (e : exn).
Arguments Ok {A} a.
Arguments Raise {A} e.

Definition rbind {A B} (r : result A) (k : A -> result B) : result B :=
  match r with
  | Ok a => k a
  | Raise e => Raise e
  end.

Definition rmap {A B} (f : A -> B) (r : result A) : result B :=
  rbind r (fun a => Ok (f a)).

(** A method body: reads and updates the receiver, returns or raises.  The
    receiver survives an exception, as a Python object does. *)
Definition M (S A : Type) : Type := S -> result A * S.

Definition ret {S A} (a : A) : M S A := fun s => (Ok a, s).
Definition raise {S A} (e : exn) : M S A := fun s => (Raise e, s).
Definition bind {S A B} (m : M S A) (k : A -> M S B) : M S B :=
  fun s => match m s with
           | (Ok a, s') => k a s'
           | (Raise e, s') => (Raise e, s')
           end.
Definition lift {S A} (r : result A) : M S A := fun s => (r, s).

Declare Scope py_scope.
Delimit Scope py_scope with py.
Notation "'let*' x ':=' m 'in' k" := (bind m (fun x => k))
  (at level 10, x name, m at level 100, k at level 200) : py_scope.
Notation "'do*' m 'in' k" := (bind m (fun _ => k))
  (at level 10, m at level 100, k at level 200) : py_scope.

(** ** The class hierarchy of the module *)

Inductive py_class : Type :=
| object
| NeuralNet
| GPBase
| _GPRegressorPredictMixin
| ExactGPRegressor
| GPRegressor
| GPBinaryClassifier.

Definition py_class_eqb (a b : py_class) : bool :=
  match a, b with
  | object, object | NeuralNet, NeuralNet | GPBase, GPBase
  | _GPRegressorPredictMixin, _GPRegressorPredictMixin
  | ExactGPRegressor, ExactGPRegressor | GPRegressor, GPRegressor
  | GPBinaryClassifier, GPBinaryClassifier => true
  | _, _ => false
  end.

(** [cls.__name__] *)
Definition __name__ (c : py_class) : string :=
  match c with
  | object => "object"
  | NeuralNet => "NeuralNet"
  | GPBase => "GPBase"
  | _GPRegressorPredictMixin => "_GPRegressorPredictMixin"
  | ExactGPRegressor => "ExactGPRegressor"
  | GPRegressor => "GPRegressor"
  | GPBinaryClassifier => "GPBinaryClassifier"
  end.

(** The bases of each [class] statement, in the order they are written. *)
Definition __bases__ (c : py_class) : list py_class :=
  match c with
  | object => []
  | NeuralNet => [object]
  | GPBase => [NeuralNet]
  | _GPRegressorPredictMixin => [object]
  | ExactGPRegressor => [_GPRegressorPredictMixin; GPBase]
  | GPRegressor => [_GPRegressorPredictMixin; GPBase]
  | GPBinaryClassifier => [GPBase]
  end.

(** The methods each class body of [probabilistic.py] defines.  [NeuralNet]
    is listed with the methods of it that this module overrides or calls. *)
Definition defines (c : py_class) (meth : string) : bool :=
  match c with
  | object => false
  | NeuralNet =>
      bool_decide (meth ∈ ["__init__"; "initialize_module";
        "initialize_criterion"; "train_step_single"; "get_loss";
        "evaluation_step"; "forward"; "forward_iter"; "infer"; "predict";
        "predict_proba"; "check_is_fitted"; "check_data"; "get_params_for";
        "_get_predict_nonlinearity"; "_default_callbacks"; "__getstate__"])
  | GPBase =>
      bool_decide (meth ∈ ["__init__"; "initialize_module";
        "initialize_criterion"; "train_step_single"; "get_loss";
        "evaluation_step"; "forward"; "predict_proba"; "sample";
        "confidence_region"; "__getstate__"])
  | _GPRegressorPredictMixin => bool_decide (meth ∈ ["predict"])
  | ExactGPRegressor => bool_decide (meth ∈ ["__init__"; "initialize_module"])
  | GPRegressor => bool_decide (meth ∈ ["__init__"])
  | GPBinaryClassifier =>
      bool_decide (meth ∈ ["__init__"; "_default_callbacks"; "classes_";
        "check_data"; "predict_proba"; "predict"])
  end.

(** C3 linearisation, as Python computes [__mro__]. *)
Definition in_tail (c : py_class) (l : list py_class) : bool :=
  match l with
  | [] => false
  | _ :: t => existsb (py_class_eqb c) t
  end.

Definition c3_candidate (seqs : list (list py_class)) : option py_class :=
  let good c := negb (existsb (in_tail c) seqs) in
  head (filter (fun c => good c = true) (omap head seqs)).

Definition c3_remove (c : py_class) (seqs : list (list py_class))
  : list (list py_class) :=
  filter (fun l => l ≠ [])
    (map (fun l => match l with
                   | h :: t => if py_class_eqb h c then t else l
                   | [] => []
                   end) seqs).

Fixpoint c3_merge (fuel : nat) (seqs : list (list py_class))
  : option (list py_class) :=
  match seqs with
  | [] => Some []
  | _ =>
      match fuel with
      | 0 => None
      | S fuel' =>
          match c3_candidate seqs with
          | None => None
          | Some c => option_map (cons c) (c3_merge fuel' (c3_remove c seqs))
          end
      end
  end.

Fixpoint mro_fuel (fuel : nat) (c : py_class) : option (list py_class) :=
  match fuel with
  | 0 => None
  | S fuel' =>
      match mapM (mro_fuel fuel') (__bases__ c) with
      | None => None
      | Some ls =>
          option_map (cons c)
            (c3_merge 32 (filter (fun l => l ≠ []) (ls ++ [__bases__ c])))
      end
  end.

Definition __mro__ (c : py_class) : list py_class :=
  default [] (mro_fuel 8 c).

(** Attribute lookup on the class: the first class of the MRO defining it. *)
Definition resolve (c : py_class) (meth : string) : option py_class :=
  head (filter (fun k => defines k meth = true) (__mro__ c)).

(** The estimator classes of the module. *)
Definition gp_estimators : list py_class :=
  [GPBase; ExactGPRegressor; GPRegressor; GPBinaryClassifier].

(** ** numpy arrays

    An array is its shape and its elements in row-major order.  Only the
    functions [probabilistic.py] calls are modelled, at the arguments it
    passes. *)

Record ndarray (A : Type) : Type := mk_ndarray {
  shape : list nat;
  data : list A
}.
Arguments mk_ndarray {A} _ _.
Arguments shape {A} _.
Arguments data {A} _.

Definition product (l : list nat) : nat := foldr Nat.mul 1 l.

(** The invariant numpy maintains between a shape and its buffer. *)
Definition wf_ndarray {A} (a : ndarray A) : Prop :=
  length (data a) = product (shape a).

Definition first_dim {A} (a : ndarray A) : nat :=
  match shape a with
  | [] => 0
  | n :: _ => n
  end.

(** Whether [b] can follow an array of trailing shape [tl] along axis 0. *)
Definition same_trailing {A} (tl : list nat) (b : ndarray A) : bool :=
  match shape b with
  | [] => false
  | _ :: tl' => bool_decide (tl' = tl)
  end.

(** [np.concatenate(arrs, 0)] *)
Definition np_concatenate0 {A} (arrs : list (ndarray A)) : result (ndarray A) :=
  match arrs with
  | [] => Raise (ValueError "need at least one array to concatenate")
  | a :: rest =>
      match shape a with
      | [] =>
          Raise (ValueError "zero-dimensional arrays cannot be concatenated")
      | _ :: tl =>
          if forallb (same_trailing tl) rest
          then Ok (mk_ndarray (sum_list (map first_dim arrs) :: tl)
                              (concat (map data arrs)))
          else Raise (ValueError "all the input array dimensions except for the concatenation axis must match exactly")
      end
  end.

(** [a.reshape(-1, 1)]: one column, as many rows as [a] has elements. *)
Definition np_reshape_m1_1 {A} (a : ndarray A) : ndarray A :=
  mk_ndarray [length (data a); 1] (data a).

(** [f(a)] applied element by element, as [1 - a] and [a > t] are. *)
Definition np_map {A B} (f : A -> B) (a : ndarray A) : ndarray B :=
  mk_ndarray (shape a) (map f (data a)).

(** The buffer cut into the blocks of the first axis. *)
Fixpoint chunks {A} (k n : nat) (l : list A) : list (list A) :=
  match n with
  | 0 => []
  | S n' => take k l :: chunks k n' (drop k l)
  end.

Definition rows {A} (a : ndarray A) : list (list A) :=
  match shape a with
  | [] => []
  | n :: tl => chunks (product tl) n (data a)
  end.

Definition same_outer {A} (n : nat) (tl : list nat) (b : ndarray A) : bool :=
  match shape b with
  | n' :: _ :: tl' => bool_decide (n' = n) && bool_decide (tl' = tl)
  | _ => false
  end.

Definition second_dim {A} (a : ndarray A) : nat :=
  match shape a with
  | _ :: m :: _ => m
  | _ => 0
  end.

(** [np.concatenate(arrs, 1)] *)
Definition np_concatenate1 {A} (arrs : list (ndarray A)) : result (ndarray A) :=
  match arrs with
  | [] => Raise (ValueError "need at least one array to concatenate")
  | a :: rest =>
      match shape a with
      | n :: _ :: tl =>
          if forallb (same_outer n tl) rest
          then Ok (mk_ndarray (n :: sum_list (map second_dim arrs) :: tl)
                     (concat (foldr (zip_with app) (replicate n [])
                                    (map rows arrs))))
          else Raise (ValueError "all the input array dimensions except for the concatenation axis must match exactly")
      | _ => Raise (ValueError "axis 1 is out of bounds")
      end
  end.

Definition np_atleast_1d {A} (a : ndarray A) : ndarray A :=
  match shape a with
  | [] => mk_ndarray [1] (data a)
  | _ => a
  end.

(** [np.hstack(arrs)]: along axis 0 for one-dimensional arrays, along axis 1
    otherwise. *)
Definition np_hstack {A} (arrs : list (ndarray A)) : result (ndarray A) :=
  let arrs := map np_atleast_1d arrs in
  match arrs with
  | a :: _ =>
      if Nat.eqb (length (shape a)) 1 then np_concatenate0 arrs
      else np_concatenate1 arrs
  | [] => np_concatenate1 arrs
  end.

(** [a[:, 1]] *)
Definition np_column1 {A} (a : ndarray A) : result (ndarray A) :=
  match shape a with
  | n :: m :: tl =>
      if Nat.ltb 1 m
      then Ok (mk_ndarray (n :: tl)
                 (concat (map (fun r => take (product tl) (drop (product tl) r))
                              (rows a))))
      else Raise (IndexError "index 1 is out of bounds for axis 1")
  | _ => Raise (IndexError "too many indices for array")
  end.

(** [a.astype('uint8')] on a boolean array. *)
Definition astype_uint8 (a : ndarray bool) : ndarray N :=
  np_map (fun b : bool => if b then 1%N else 0%N) a.

(** ** Floating-point dtypes

    The rounding of a binary floating-point format with [prec] bits of
    precision and least exponent [emin], to the nearest representable value
    with ties to even, on rationals.  The exponents have no upper bound
    here: overflow is not modelled. *)

(** The nearest integer, the even one at a tie. *)
Definition round_half_even (q : Q) : Z :=
  let f := Qfloor q in
  match (q - inject_Z f ?= 1 # 2)%Q with
  | Lt => f
  | Gt => (f + 1)%Z
  | Eq => if Z.even f then f else (f + 1)%Z
  end.

Definition pow2 (e : Z) : Q := (2 ^ e)%Q.

(** The largest [l] with [2 ^ l <= |q|], for [q] other than 0. *)
Definition Qlog2 (q : Q) : Z :=
  let l := (Z.log2 (Z.abs (Qnum q)) - Z.log2 (Zpos (Qden q)))%Z in
  if Qle_bool (pow2 l) (Qabs q) then l else (l - 1)%Z.

Definition float_round (prec emin : Z) (q : Q) : Q :=
  if Qeq_bool q 0 then 0%Q
  else
    let e := Z.max (Qlog2 q - (prec - 1)) emin in
    (inject_Z (round_half_even (q / pow2 e)) * pow2 e)%Q.

(** binary32 and binary64, the dtypes float32 and float64; a Python float is
    a binary64. *)
Definition float32_round (q : Qc) : Qc := Q2Qc (float_round 24 (-149) q).
Definition float64_round (q : Qc) : Qc := Q2Qc (float_round 53 (-1074) q).

(** ** torch tensors

    The module inspects a tensor only through [dim], [mean] and unary minus. *)
Class TensorOps (tensor : Type) : Type := {
  dim : tensor -> nat;
  tmean : tensor -> tensor;
  tneg : tensor -> tensor;
  dim_tmean : forall t, dim (tmean t) = 0;
  dim_tneg : forall t, dim (tneg t) = dim t
}.

(** A concrete tensor, elements in [Qc]. *)
Definition qtensor_mean (a : ndarray Qc) : ndarray Qc :=
  mk_ndarray [] [(foldr Qcplus 0 (data a) / Qc_of_Z (Z.of_nat (length (data a))))%Qc].

#[export] Instance qtensor_ops : TensorOps (ndarray Qc) := {|
  dim a := length (shape a);
  tmean := qtensor_mean;
  tneg := np_map Qcopp;
  dim_tmean _ := eq_refl;
  dim_tneg _ := eq_refl
|}.

(** A module output: one object, or a tuple of several. *)
Inductive output (value : Type) : Type :=
| Single (y : value)
| Tuple (ys : list value).
Arguments Single {value} y.
Arguments Tuple {value} ys.

(** A Python [for] loop whose body may raise. *)
Fixpoint for_loop {A St} (body : A -> St -> result St) (items : list A)
  (acc : St) : result St :=
  match items with
  | [] => Ok acc
  | x :: xs => rbind (body x acc) (for_loop body xs)
  end.

(** [[f(x) for x in items]], stopping at the first exception. *)
Fixpoint rmapM {A B} (f : A -> result B) (items : list A) : result (list B) :=
  match items with
  | [] => Ok []
  | x :: xs => rbind (f x) (fun y => rbind (rmapM f xs) (fun ys => Ok (y :: ys)))
  end.

(** A generator run to exhaustion: what it yielded, and the exception that
    ended it if one did. *)
Definition generated (A : Type) : Type := (list A * option exn)%type.

Definition for_gen {A St} (g : generated A) (body : A -> St -> result St)
  (acc : St) : result St :=
  rbind (for_loop body g.1 acc)
        (fun acc' => match g.2 with
                     | None => Ok acc'
                     | Some e => Raise e
                     end).

(** [list(g)] *)
Definition py_list {A} (g : generated A) : result (list A) :=
  for_gen g (fun x acc => Ok (acc ++ [x])) [].

(** [f(k1=v1, ..., **extra)]: the keyword arguments the callee receives. *)
Definition kwargs_merge {V} (explicit : list (string * V))
  (extra : gmap string V) : result (gmap string V) :=
  match List.find (fun kv => bool_decide (is_Some (extra !! kv.1))) explicit with
  | Some kv =>
      Raise (TypeError ("got multiple values for keyword argument '"
                          +:+ kv.1 +:+ "'"))
  | None => Ok (foldr (fun kv m => <[kv.1 := kv.2]> m) extra explicit)
  end.

(** ** Python strings

    A [str] as the list of its characters.  The docstrings the module
    rewrites are ASCII. *)

Definition pystr : Type := list ascii.

Definition newline : ascii := "010"%char.

Fixpoint startswith (sub s : pystr) : bool :=
  match sub, s with
  | [], _ => true
  | c :: sub', d :: s' => Ascii.eqb c d && startswith sub' s'
  | _ :: _, [] => false
  end.

Fixpoint find_from (sub s : pystr) (i : nat) : option nat :=
  if startswith sub s then Some i
  else match s with
       | [] => None
       | _ :: s' => find_from sub s' (S i)
       end.

(** [s.find(sub)]: the lowest index where [sub] occurs, or -1. *)
Definition str_find (s sub : pystr) : Z :=
  match find_from sub s 0 with
  | Some i => Z.of_nat i
  | None => (-1)%Z
  end.

(** [s[i:]], where a negative [i] counts from the end. *)
Definition slice_from (s : pystr) (i : Z) : pystr :=
  if (i <? 0)%Z then drop (Z.to_nat (Z.max 0 (Z.of_nat (length s) + i))) s
  else drop (Z.to_nat i) s.

(** ** Regular expressions

    The fragment of [re] the four patterns of the module are written in, with
    the greedy, backtracking search of [re.search].  Groups only capture, so
    they are not represented. *)

Inductive charset : Type :=
| Whitespace   (* \s *)
| AnyButNewline. (* . *)

(** [\s] on a [str] pattern matches what [str.isspace] accepts; below 256
    these are the code points 9-13, 28-32, 133 and 160. *)
Definition isspace (c : ascii) : bool :=
  let n := nat_of_ascii c in
  (Nat.leb 9 n && Nat.leb n 13) || (Nat.leb 28 n && Nat.leb n 32)
  || Nat.eqb n 133 || Nat.eqb n 160.

Definition in_charset (cs : charset) (c : ascii) : bool :=
  match cs with
  | Whitespace => isspace c
  | AnyButNewline => negb (Ascii.eqb c newline)
  end.

Inductive regex : Type :=
| Eps
| Chr (c : ascii)
| Cls (cs : charset)
| Seq (r1 r2 : regex)
| Star (cs : charset)            (* cs*, greedy *)
| Rep (r : regex) (lo extra : nat). (* r{lo,lo+extra}, greedy *)

Definition Plus (cs : charset) : regex := Seq (Cls cs) (Star cs).

Fixpoint Lit (s : pystr) : regex :=
  match s with
  | [] => Eps
  | [c] => Chr c
  | c :: s' => Seq (Chr c) (Lit s')
  end.

(** A continuation receives what is left of the subject and says where the
    whole match ends, or fails and makes the matcher try its next choice. *)
Definition cont : Type := pystr -> option pystr.

Fixpoint match_star (cs : charset) (s : pystr) (k : cont) : option pystr :=
  match s with
  | c :: s' =>
      if in_charset cs c
      then match match_star cs s' k with
           | Some rest => Some rest
           | None => k s
           end
      else k s
  | [] => k s
  end.

Fixpoint match_upto (m : pystr -> cont -> option pystr) (n : nat)
  (s : pystr) (k : cont) : option pystr :=
  match n with
  | 0 => k s
  | S n' =>
      match m s (fun s1 => match_upto m n' s1 k) with
      | Some rest => Some rest
      | None => k s
      end
  end.

Fixpoint match_times (m : pystr -> cont -> option pystr) (lo extra : nat)
  (s : pystr) (k : cont) : option pystr :=
  match lo with
  | 0 => match_upto m extra s k
  | S lo' => m s (fun s1 => match_times m lo' extra s1 k)
  end.

Fixpoint rmatch (r : regex) (s : pystr) (k : cont) : option pystr :=
  match r with
  | Eps => k s
  | Chr c =>
      match s with
      | d :: s' => if Ascii.eqb c d then k s' else None
      | [] => None
      end
  | Cls cs =>
      match s with
      | d :: s' => if in_charset cs d then k s' else None
      | [] => None
      end
  | Seq r1 r2 => rmatch r1 s (fun s1 => rmatch r2 s1 k)
  | Star cs => match_star cs s k
  | Rep r lo extra => match_times (rmatch r) lo extra s k
  end.

(** [pattern.match(s)]: the end of the match that starts at the head of [s]. *)
Definition re_match (r : regex) (s : pystr) : option nat :=
  match rmatch r s Some with
  | Some rest => Some (length s - length rest)
  | None => None
  end.

Fixpoint search_from (r : regex) (s : pystr) (i : nat) : option (nat * nat) :=
  match re_match r s with
  | Some n => Some (i, i + n)
  | None =>
      match s with
      | [] => None
      | _ :: s' => search_from r s' (S i)
      end
  end.

(** [pattern.search(s).span()]; [search] returns [None] when nothing matches,
    and [None.span()] raises. *)
Definition re_search_span (r : regex) (s : pystr) : result (nat * nat) :=
  match search_from r s 0 with
  | Some se => Ok se
  | None => Raise (AttributeError "'NoneType' object has no attribute 'span'")
  end.

(** ** Docstring templating *)

Definition pattern_for (key : string) : regex :=
  Seq (Seq (Chr newline) (Plus Whitespace))
      (Seq (Seq (Lit (list_ascii_of_string key))
                (Seq (Star AnyButNewline) (Chr newline)))
           (Rep (Seq (Cls Whitespace) (Plus AnyButNewline)) 1 98)).

(** [(\n\s+)(module .*\n)(\s.+){1,99}] and its three siblings *)
Definition module_pattern : regex := pattern_for "module ".
Definition criterion_pattern : regex := pattern_for "criterion ".
Definition batch_size_pattern : regex := pattern_for "batch_size ".
Definition train_split_pattern : regex := pattern_for "train_split ".

Definition parameters_header : pystr := list_ascii_of_string
"    Parameters
    ----------".

Definition exact_gp_regr_doc_start : pystr := list_ascii_of_string
"Exact Gaussian Process regressor

    Use this specifically if you want to perform an exact solution to the
    Gaussian Process. This implies that the module should by a
    :class:`~gpytorch.models.ExactGP` module and you cannot use batching (i.e.
    batch size should be -1).

".

Definition exact_gp_regr_module_text : pystr := list_ascii_of_string
"

    Module : gpytorch.models.ExactGP (class or instance)
      The module needs to return a
      :class:`~gpytorch.distributions.MultivariateNormal` distribution.

".

Definition exact_gp_regr_criterion_text : pystr := list_ascii_of_string
"

    likelihood : gpytorch.likelihoods.GaussianLikelihood (class or instance)
      The likelihood used for the exact GP regressor. Usually doesn't need to be
      changed.

    criterion : gpytorch.mlls.ExactMarginalLogLikelihood
      The objective function to learn the posterior of of the GP regressor.
      Usually doesn't need to be changed.

".

Definition exact_gp_regr_batch_size_text : pystr := list_ascii_of_string
"

    batch_size : int (default=-1)
      Mini-batch size. For exact GPs, it must be set to -1, since the exact
      solution cannot deal with batching. To make use of batching, use
      :class:`.GPRegressor` in conjunction with a variational strategy.

".

Definition gp_regr_train_split_text : pystr := list_ascii_of_string
"

    train_split : None or callable (default=None)
      If None, there is no train/validation split. Else, train_split should be a
      function or callable that is called with X and y data and should return
      the tuple ``dataset_train, dataset_valid``. The validation data may be
      None. There is no default train split for GP regressors because random
      splitting is typically not desired, e.g. because there is a temporal
      relationship between samples.

".

Definition gp_likelihood_attribute_text : pystr := list_ascii_of_string
"

    likelihood_: torch module (instance)
      The instantiated likelihood.

".

(** [start, end = pattern.search(doc).span();
     doc = doc[:start] + text + doc[end:]] *)
Definition replace_match (pattern : regex) (text doc : pystr) : result pystr :=
  rbind (re_search_span pattern doc) (fun se =>
    Ok (take se.1 doc ++ text ++ drop se.2 doc)).

Definition get_exact_gp_regr_doc (doc : pystr) : result pystr :=
  let params_start_idx := str_find doc parameters_header in
  let doc := slice_from doc params_start_idx in
  let doc := exact_gp_regr_doc_start ++ list_ascii_of_string " " ++ doc in
  rbind (replace_match module_pattern exact_gp_regr_module_text doc)
  (fun doc =>
  rbind (replace_match criterion_pattern exact_gp_regr_criterion_text doc)
  (fun doc =>
  rbind (replace_match batch_size_pattern exact_gp_regr_batch_size_text doc)
  (fun doc =>
  rbind (replace_match train_split_pattern gp_regr_train_split_text doc)
  (fun doc =>
  Ok (doc ++ gp_likelihood_attribute_text))))).

(** ** The estimators *)

Section Probabilistic.
Local Open Scope py_scope.

(** Python objects the module passes around without looking inside
    (distributions, modules, criteria, targets), tensors, inputs [X],
    batches of the data loader, [**fit_params], and the part of the
    estimator that belongs to [NeuralNet]. *)
Context {value tensor input batch fit_params base_state : Type}.
Context `{TensorOps tensor}.

(** The attributes of an estimator this module reads or writes.  An
    attribute with a trailing underscore exists only once it was set. *)
Record net : Type := mk_net {
  __class__ : py_class;
  likelihood : value;
  criterion : value;
  threshold : Qc;
  likelihood_ : option value;
  module_ : option value;
  criterion_ : option value;
  base : base_state
}.

Definition set_module_ (m : value) (s : net) : net :=
  mk_net (__class__ s) (likelihood s) (criterion s) (threshold s)
         (likelihood_ s) (Some m) (criterion_ s) (base s).

Definition set_criterion_ (c : value) (s : net) : net :=
  mk_net (__class__ s) (likelihood s) (criterion s) (threshold s)
         (likelihood_ s) (module_ s) (Some c) (base s).

Definition no_attribute (s : net) (attr : string) : exn :=
  AttributeError ("'" +:+ __name__ (__class__ s)
                      +:+ "' object has no attribute '" +:+ attr +:+ "'").

(** [self.likelihood_], [self.module_] *)
Definition get_likelihood_ : M net value := fun s =>
  match likelihood_ s with
  | Some l => (Ok l, s)
  | None => (Raise (no_attribute s "likelihood_"), s)
  end.

Definition get_module_ : M net value := fun s =>
  match module_ s with
  | Some m => (Ok m, s)
  | None => (Raise (no_attribute s "module_"), s)
  end.

(** *** Collaborators *)

(** [NeuralNet] methods reached through [super()] or inherited. *)
Variable NeuralNet_train_step_single :
  batch -> fit_params -> M net (gmap string value).
Variable NeuralNet_get_loss :
  value -> value -> option input -> bool -> M net tensor.
Variable NeuralNet_check_is_fitted : net -> result unit.
(** [infer], with the gradient mode the surrounding [with] block sets. *)
Variable NeuralNet_infer : bool -> input -> M net (output value).
Variable NeuralNet_forward_iter :
  input -> bool -> string -> net -> generated (output value) * net.
Variable NeuralNet_get_params_for : string -> net -> gmap string value.
Variable NeuralNet__get_predict_nonlinearity : net -> tensor -> tensor.
Variable NeuralNet_predict_proba : input -> M net (ndarray Qc).

(** [skorch.dataset.unpack_data], [skorch.utils.to_numpy] *)
Variable unpack_data : batch -> result (input * value).
Variable to_numpy : tensor -> ndarray Qc.
(** The rounding of the dtype of the arrays [to_numpy] returns (float32 for
    a module in single precision): an arithmetic operation of numpy on such
    an array returns the exact result rounded, and a Python float that is
    compared with the array is converted to the dtype first. *)
Variable dtype_round : Qc -> Qc.

(** torch and gpytorch: calling a class or a module, switching a module
    between train and eval mode, the moments of a distribution. *)
Variable py_call_kwargs : value -> gmap string value -> result value.
Variable py_call : value -> value -> result value.
Variable module_train : bool -> value -> value.
Variable mean stddev : value -> tensor.

(** *** GPBase *)

Definition GPBase_initialize_criterion : M net unit := fun s =>
  let criterion_params := NeuralNet_get_params_for "criterion" s in
  (let* ll := get_likelihood_ in
   let* m := get_module_ in
   let* kwargs := lift (kwargs_merge [("likelihood", ll); ("model", m)]
                                     criterion_params) in
   let* c := lift (py_call_kwargs (criterion s) kwargs) in
   fun s => (Ok tt, set_criterion_ c s)) s.

(** [step[key]] *)
Definition getitem (step : gmap string value) (key : string) : result value :=
  match step !! key with
  | Some v => Ok v
  | None => Raise (KeyError key)
  end.

Definition GPBase_train_step_single (b : batch) (fp : fit_params)
  : M net (gmap string value) :=
  let* step := NeuralNet_train_step_single b fp in
  let* ll := get_likelihood_ in
  let* y_pred := lift (getitem step "y_pred") in
  let* posterior := lift (py_call ll y_pred) in
  ret (<["y_pred" := posterior]> step).

Definition GPBase_get_loss (y_pred y_true : value) (X : option input)
  (training : bool) : M net tensor :=
  let* loss := NeuralNet_get_loss y_pred y_true X training in
  let loss := if negb (Nat.eqb (dim loss) 0) then tmean loss else loss in
  ret (tneg loss).

Definition GPBase_evaluation_step (b : batch) (training : bool)
  : M net (output value) :=
  do* (fun s => (NeuralNet_check_is_fitted s, s)) in
  let* Xi_y := lift (unpack_data b) in
  let Xi := Xi_y.1 in
  let* m := get_module_ in
  do* (fun s => (Ok tt, set_module_ (module_train training m) s)) in
  let* y_infer := NeuralNet_infer training Xi in
  match y_infer with
  | Tuple ys =>
      let* ll := get_likelihood_ in
      match ys with
      | y0 :: rest =>
          let* p := lift (py_call ll y0) in
          ret (Tuple ([p] ++ rest))
      | [] => raise (IndexError "tuple index out of range")
      end
  | Single y =>
      let* ll := get_likelihood_ in
      let* p := lift (py_call ll y) in
      ret (Single p)
  end.

Definition GPBase_forward (X : input) (training : bool) (device : string)
  : M net (list (output value)) := fun s =>
  let gs := NeuralNet_forward_iter X training device s in
  let y_infer := py_list gs.1 in
  (y_infer, gs.2).

Definition GPBase_predict_proba (X : input) : M net (ndarray Qc) := fun s =>
  (Raise (AttributeError ("'predict_proba' is not implemented for "
                            +:+ __name__ (__class__ s))), s).

(** [yi[0] if isinstance(yi, tuple) else yi] *)
Definition posterior_of (yi : output value) : result value :=
  match yi with
  | Tuple (y0 :: _) => Ok y0
  | Tuple [] => Raise (IndexError "tuple index out of range")
  | Single y => Ok y
  end.

(** *** _GPRegressorPredictMixin *)

Inductive predicted : Type :=
| YPred (y_pred : ndarray Qc)
| YPredStd (y_pred y_std : ndarray Qc).

Definition return_cov_msg : string :=
  "The 'return_cov' argument is not supported. Please try: " +:+
  "'posterior = next(gpr.forward_iter(X)); " +:+
  "posterior.covariance_matrix'.".

(** The body of the loop of [predict], on the pair [(y_preds, y_stds)]. *)
Definition predict_body (nonlin : tensor -> tensor) (return_std : bool)
  (yi : output value) (acc : list (ndarray Qc) * list (ndarray Qc))
  : result (list (ndarray Qc) * list (ndarray Qc)) :=
  rbind (posterior_of yi) (fun posterior =>
    let y_preds := acc.1 ++ [to_numpy (nonlin (mean posterior))] in
    if negb return_std then Ok (y_preds, acc.2)
    else Ok (y_preds, acc.2 ++ [to_numpy (nonlin (stddev posterior))])).

Definition _GPRegressorPredictMixin_predict (X : input)
  (return_std return_cov : bool) : M net predicted := fun s =>
  if return_cov then (Raise (NotImplementedError return_cov_msg), s)
  else
    let nonlin := NeuralNet__get_predict_nonlinearity s in
    let gs := NeuralNet_forward_iter X false "cpu" s in
    (rbind (for_gen gs.1 (predict_body nonlin return_std) ([], []))
       (fun acc =>
          rbind (np_concatenate0 acc.1) (fun y_pred =>
            if negb return_std then Ok (YPred y_pred)
            else rbind (np_concatenate0 acc.2) (fun y_std =>
                   Ok (YPredStd y_pred y_std)))),
     gs.2).

(** *** GPBinaryClassifier *)

Definition predict_proba_body (nonlin : tensor -> tensor)
  (yi : output value) (y_probas : list (ndarray Qc))
  : result (list (ndarray Qc)) :=
  rbind (posterior_of yi) (fun posterior =>
    Ok (y_probas ++ [to_numpy (nonlin (mean posterior))])).

Definition GPBinaryClassifier_predict_proba (X : input)
  : M net (ndarray Qc) := fun s =>
  let nonlin := NeuralNet__get_predict_nonlinearity s in
  let gs := NeuralNet_forward_iter X false "cpu" s in
  (rbind (for_gen gs.1 (predict_proba_body nonlin) [])
     (fun y_probas =>
        rbind (np_concatenate0 y_probas) (fun c =>
          let y_proba := np_reshape_m1_1 c in
          np_hstack [np_map (fun p => dtype_round (1 - p)%Qc) y_proba;
                     y_proba])),
   gs.2).

(** [self.predict_proba(X)]: the method the class of [self] resolves to. *)
Definition predict_proba (X : input) : M net (ndarray Qc) := fun s =>
  match resolve (__class__ s) "predict_proba" with
  | Some GPBinaryClassifier => GPBinaryClassifier_predict_proba X s
  | Some GPBase => GPBase_predict_proba X s
  | Some NeuralNet => NeuralNet_predict_proba X s
  | _ => (Raise (no_attribute s "predict_proba"), s)
  end.

Definition GPBinaryClassifier_predict (X : input) : M net (ndarray N) :=
  let* y_proba := predict_proba X in
  fun s =>
    (rbind (np_column1 y_proba) (fun col =>
       Ok (astype_uint8
             (np_map (fun p => bool_decide (dtype_round (threshold s) < p)%Qc)
                col))), s).

(** *** Loops and generators *)

Lemma for_loop_append {A St} (body : A -> St -> result St) xs ys acc :
  for_loop body (xs ++ ys) acc
  = rbind (for_loop body xs acc) (for_loop body ys).
Proof.
  revert acc. induction xs as [|x xs IH]; intros acc; simpl; [done|].
  destruct (body x acc) as [acc'|e]; simpl; [apply IH | done].
Qed.

Lemma for_loop_collect {A} (xs acc : list A) :
  for_loop (fun x acc => Ok (acc ++ [x])) xs acc = Ok (acc ++ xs).
Proof.
  revert acc. induction xs as [|x xs IH]; intros acc; simpl.
  - by rewrite app_nil_r.
  - rewrite IH. by rewrite <- app_assoc.
Qed.

Lemma py_list_exhausted {A} (xs : list A) : py_list (xs, None) = Ok xs.
Proof. unfold py_list, for_gen. simpl. by rewrite for_loop_collect. Qed.

Lemma py_list_raised {A} (xs : list A) e : py_list (xs, Some e) = Raise e.
Proof. unfold py_list, for_gen. simpl. by rewrite for_loop_collect. Qed.

(** *** GPBase.get_loss *)

(** C1. [GPBase.get_loss] returns the negation of the loss of
    [NeuralNet.get_loss]; a loss that is not zero-dimensional is replaced by
    its mean before it is negated, so what is returned is a scalar, and an
    exception of the base loss is passed on. *)
Theorem GPBase_get_loss_negated_scalar (y_pred y_true : value)
  (X : option input) (training : bool) (s : net) :
  match NeuralNet_get_loss y_pred y_true X training s with
  | (Ok loss, s') =>
      let objective := if Nat.eqb (dim loss) 0 then loss else tmean loss in
      GPBase_get_loss y_pred y_true X training s = (Ok (tneg objective), s')
      /\ dim (tneg objective) = 0
      /\ (dim loss = 0 -> tneg objective = tneg loss)
      /\ (dim loss <> 0 -> tneg objective = tneg (tmean loss))
  | (Raise e, s') =>
      GPBase_get_loss y_pred y_true X training s = (Raise e, s')
  end.
Proof.
  unfold GPBase_get_loss, bind, ret.
  destruct (NeuralNet_get_loss y_pred y_true X training s) as [[loss|e] s'];
    [|done].
  destruct (Nat.eqb_spec (dim loss) 0) as [Hd|Hd]; simpl.
  - split; [done|]. split; [by rewrite dim_tneg|]. split; [done|].
    intros Hne. by destruct Hne.
  - split; [done|]. split; [by rewrite dim_tneg, dim_tmean|].
    split; [|done]. intros Hz. by destruct Hd.
Qed.

(** *** GPBase.forward *)

(** C2. When [forward_iter] runs through the batches of [X], [forward]
    returns the list of what it yielded, one element per batch and in the
    order of the batches, each element being the object yielded and nothing
    concatenated; when [forward_iter] raises, so does [forward]. *)
Theorem GPBase_forward_list (X : input) (training : bool) (device : string)
  (s s' : net) (ys : list (output value)) :
  NeuralNet_forward_iter X training device s = ((ys, None), s') ->
  GPBase_forward X training device s = (Ok ys, s')
  /\ (forall y_infer, GPBase_forward X training device s = (Ok y_infer, s') ->
        length y_infer = length ys
        /\ forall i, y_infer !! i = ys !! i).
Proof.
  intros Hiter. unfold GPBase_forward. rewrite Hiter. simpl.
  rewrite py_list_exhausted. split; [done|].
  intros y_infer Heq. by simplify_eq.
Qed.

Lemma GPBase_forward_raises (X : input) (training : bool) (device : string)
  (s s' : net) (ys : list (output value)) (e : exn) :
  NeuralNet_forward_iter X training device s = ((ys, Some e), s') ->
  GPBase_forward X training device s = (Raise e, s').
Proof.
  intros Hiter. unfold GPBase_forward. rewrite Hiter. simpl.
  by rewrite py_list_raised.
Qed.

(** *** GPBase.initialize_criterion *)

Lemma kwargs_merge_two {V} (k1 k2 : string) (v1 v2 : V)
  (extra : gmap string V) :
  extra !! k1 = None -> extra !! k2 = None ->
  kwargs_merge [(k1, v1); (k2, v2)] extra
  = Ok (<[k1 := v1]> (<[k2 := v2]> extra)).
Proof.
  intros H1 H2. unfold kwargs_merge. simpl. rewrite H1, H2.
  rewrite !bool_decide_eq_false_2; [done | by apply is_Some_None ..].
Qed.

Lemma kwargs_merge_clash {V} (k : string) (v w : V)
  (explicit : list (string * V)) (extra : gmap string V) :
  extra !! k = Some w ->
  exists msg, kwargs_merge ((k, v) :: explicit) extra = Raise (TypeError msg).
Proof.
  intros Hk. unfold kwargs_merge. simpl. rewrite Hk.
  rewrite bool_decide_eq_true_2 by eauto. eauto.
Qed.

(** C3. With [likelihood_] and [module_] instantiated and no criterion
    parameter named [likelihood] or [model], [initialize_criterion] calls
    [self.criterion] with the keyword arguments [likelihood=self.likelihood_],
    [model=self.module_] and every user-supplied criterion parameter, and
    stores what the call returns in [criterion_], leaving the other
    attributes as they were.  Every estimator class of the module takes
    [initialize_criterion] from [GPBase]. *)
Theorem GPBase_initialize_criterion_kwargs (s : net) (ll m : value) :
  likelihood_ s = Some ll ->
  module_ s = Some m ->
  NeuralNet_get_params_for "criterion" s !! "likelihood" = None ->
  NeuralNet_get_params_for "criterion" s !! "model" = None ->
  exists kwargs : gmap string value,
    kwargs !! "likelihood" = Some ll
    /\ kwargs !! "model" = Some m
    /\ (forall k, k <> "likelihood" -> k <> "model" ->
          kwargs !! k = NeuralNet_get_params_for "criterion" s !! k)
    /\ (forall c, py_call_kwargs (criterion s) kwargs = Ok c ->
          GPBase_initialize_criterion s = (Ok tt, set_criterion_ c s)
          /\ criterion_ (set_criterion_ c s) = Some c
          /\ likelihood_ (set_criterion_ c s) = Some ll
          /\ module_ (set_criterion_ c s) = Some m)
    /\ (forall e, py_call_kwargs (criterion s) kwargs = Raise e ->
          GPBase_initialize_criterion s = (Raise e, s))
    /\ (forall c, c ∈ gp_estimators ->
          resolve c "initialize_criterion" = Some GPBase).
Proof.
  intros Hll Hm Hk1 Hk2.
  exists (<["likelihood" := ll]>
            (<["model" := m]> (NeuralNet_get_params_for "criterion" s))).
  split; [by rewrite lookup_insert_eq|].
  split; [by rewrite lookup_insert_ne, lookup_insert_eq|].
  split; [intros k Hn1 Hn2; by rewrite !lookup_insert_ne|].
  assert (Hrun : forall r,
    py_call_kwargs (criterion s)
      (<["likelihood" := ll]>
         (<["model" := m]> (NeuralNet_get_params_for "criterion" s))) = r ->
    GPBase_initialize_criterion s
    = match r with
      | Ok c => (Ok tt, set_criterion_ c s)
      | Raise e => (Raise e, s)
      end).
  { intros r Hr. unfold GPBase_initialize_criterion, bind, lift.
    unfold get_likelihood_ at 1. rewrite Hll.
    unfold get_module_ at 1. rewrite Hm.
    rewrite (kwargs_merge_two _ _ _ _ _ Hk1 Hk2), Hr. by destruct r. }
  split; [|split].
  - intros c Hc. rewrite (Hrun _ Hc). simpl. by rewrite Hll, Hm.
  - intros e He. by rewrite (Hrun _ He).
  - intros c Hc. unfold gp_estimators in Hc. set_unfold.
    destruct Hc as [->|[->|[->|[->|[]]]]]; reflexivity.
Qed.

(** *** GPBase.train_step_single *)

(** C5. The dictionary [train_step_single] returns is the one of the base
    step with [y_pred] replaced by the likelihood applied to it: every other
    key, [loss] among them, has the entry the base step gave it. *)
Theorem GPBase_train_step_single_frame (b : batch) (fp : fit_params)
  (s s1 : net) (step : gmap string value) (ll y_pred posterior : value) :
  NeuralNet_train_step_single b fp s = (Ok step, s1) ->
  likelihood_ s1 = Some ll ->
  step !! "y_pred" = Some y_pred ->
  py_call ll y_pred = Ok posterior ->
  exists step' : gmap string value,
    GPBase_train_step_single b fp s = (Ok step', s1)
    /\ step' !! "y_pred" = Some posterior
    /\ (forall k, k <> "y_pred" -> step' !! k = step !! k)
    /\ step' !! "loss" = step !! "loss"
    /\ dom step' = dom step.
Proof.
  intros Hbase Hll Hy Hcall.
  exists (<["y_pred" := posterior]> step).
  split.
  - unfold GPBase_train_step_single, bind, lift, ret. rewrite Hbase.
    unfold get_likelihood_. rewrite Hll.
    unfold getitem. by rewrite Hy, Hcall.
  - split; [by rewrite lookup_insert_eq|].
    split; [intros k Hk; by rewrite lookup_insert_ne|].
    split; [by rewrite lookup_insert_ne|].
    apply dom_insert_lookup_L. by exists y_pred.
Qed.

(** *** GPBase.evaluation_step *)

(** What [evaluation_step] does to the result of [infer]. *)
Definition apply_likelihood_first (ll : value) (y_infer : output value)
  : result (output value) :=
  match y_infer with
  | Single y => rbind (py_call ll y) (fun p => Ok (Single p))
  | Tuple (y0 :: rest) => rbind (py_call ll y0) (fun p => Ok (Tuple (p :: rest)))
  | Tuple [] => Raise (IndexError "tuple index out of range")
  end.

Lemma GPBase_evaluation_step_fitted (b : batch) (training : bool)
  (s s1 : net) (Xi : input) (y : value) (m ll : value)
  (y_infer : output value) :
  NeuralNet_check_is_fitted s = Ok tt ->
  unpack_data b = Ok (Xi, y) ->
  module_ s = Some m ->
  NeuralNet_infer training Xi (set_module_ (module_train training m) s)
  = (Ok y_infer, s1) ->
  likelihood_ s1 = Some ll ->
  GPBase_evaluation_step b training s = (apply_likelihood_first ll y_infer, s1).
Proof.
  intros Hfit Hb Hm Hinf Hll.
  unfold GPBase_evaluation_step, bind, lift, ret, raise.
  rewrite Hfit, Hb. unfold get_module_ at 1. rewrite Hm. simpl.
  rewrite Hinf.
  destruct y_infer as [y1|[|y0 rest]]; unfold get_likelihood_; rewrite Hll;
    simpl; try done.
  - by destruct (py_call ll y1).
  - by destruct (py_call ll y0).
Qed.

(** C6. [evaluation_step] checks first that the estimator is fitted: when
    it is not, the error of the check is raised, the estimator is left as it
    was and [infer] is not run (the outcome is the same for every [infer]).
    When it is fitted, the step returns the likelihood applied to what
    [infer] returns on the input of the batch, and for a tuple the
    likelihood applied to its first element followed by the other elements
    unchanged. *)
Theorem GPBase_evaluation_step_checked (b : batch) (training : bool)
  (s : net) :
  (forall e, NeuralNet_check_is_fitted s = Raise e ->
     GPBase_evaluation_step b training s = (Raise e, s))
  /\ (forall Xi y_true m s1 ll y_infer,
        NeuralNet_check_is_fitted s = Ok tt ->
        unpack_data b = Ok (Xi, y_true) ->
        module_ s = Some m ->
        NeuralNet_infer training Xi (set_module_ (module_train training m) s)
        = (Ok y_infer, s1) ->
        likelihood_ s1 = Some ll ->
        (forall y p, y_infer = Single y -> py_call ll y = Ok p ->
           GPBase_evaluation_step b training s = (Ok (Single p), s1))
        /\ (forall y0 rest p, y_infer = Tuple (y0 :: rest) ->
              py_call ll y0 = Ok p ->
              GPBase_evaluation_step b training s
              = (Ok (Tuple (p :: rest)), s1))).
Proof.
  split.
  - intros e He. unfold GPBase_evaluation_step, bind. by rewrite He.
  - intros Xi y_true m s1 ll y_infer Hfit Hb Hm Hinf Hll.
    pose proof (GPBase_evaluation_step_fitted b training s s1 Xi y_true m ll
                  y_infer Hfit Hb Hm Hinf Hll) as Hstep.
    split.
    + intros y p -> Hp. rewrite Hstep. simpl. by rewrite Hp.
    + intros y0 rest p -> Hp. rewrite Hstep. simpl. by rewrite Hp.
Qed.

(** *** predict_proba outside GPBinaryClassifier *)

(** C9. On an estimator whose class is [GPBase], [ExactGPRegressor] or
    [GPRegressor], fitted or not, [predict_proba] raises an
    [AttributeError] whose message ends with the name of that class and
    leaves the estimator unchanged; of the estimator classes only
    [GPBinaryClassifier] has a [predict_proba] of its own, the others
    resolve to the raising one of [GPBase]. *)
Theorem predict_proba_not_implemented (X : input) (s : net) :
  __class__ s ∈ [GPBase; ExactGPRegressor; GPRegressor] ->
  predict_proba X s
  = (Raise (AttributeError ("'predict_proba' is not implemented for "
                              +:+ __name__ (__class__ s))), s)
  /\ (forall c, c ∈ gp_estimators ->
        resolve c "predict_proba"
        = Some (if py_class_eqb c GPBinaryClassifier
                then GPBinaryClassifier else GPBase)).
Proof.
  intros Hcls. split.
  - unfold predict_proba.
    assert (Hr : resolve (__class__ s) "predict_proba" = Some GPBase).
    { set_unfold. destruct Hcls as [->|[->|[->|[]]]]; reflexivity. }
    by rewrite Hr.
  - intros c Hc. unfold gp_estimators in Hc. set_unfold.
    destruct Hc as [->|[->|[->|[->|[]]]]]; reflexivity.
Qed.

(** *** Concatenation along axis 0 *)

Lemma np_concatenate0_ok {A} (arrs : list (ndarray A)) (a : ndarray A) :
  np_concatenate0 arrs = Ok a ->
  data a = concat (map data arrs)
  /\ first_dim a = sum_list (map first_dim arrs)
  /\ arrs <> [].
Proof.
  unfold np_concatenate0. destruct arrs as [|a0 rest]; [done|].
  destruct (shape a0) as [|n tl]; [done|].
  destruct (forallb (same_trailing tl) rest); [|done].
  intros [= <-]. by repeat split.
Qed.

(** *** _GPRegressorPredictMixin.predict *)

(** The posterior means and standard deviations of the batches, as the loop
    of [predict] converts them. *)
Definition batch_means (nonlin : tensor -> tensor) (ps : list value)
  : list (ndarray Qc) :=
  map (fun p => to_numpy (nonlin (mean p))) ps.



Lemma predict_loop_raises (nonlin : tensor -> tensor) (return_std : bool)
  (ys : list (output value)) (e : exn)
  (acc : list (ndarray Qc) * list (ndarray Qc)) :
  rmapM posterior_of ys = Raise e ->
  for_loop (predict_body nonlin return_std) ys acc = Raise e.
Proof.
  revert acc. induction ys as [|yi ys IH]; intros acc Hps; simpl in *; [done|].
  unfold predict_body at 1.
  destruct (posterior_of yi) as [p|e']; simpl in *; [|congruence].
  destruct (rmapM posterior_of ys) as [ps'|e'']; simpl in *; [done|].
  injection Hps as ->. destruct return_std; simpl; by apply IH.
Qed.


(** *** GPBinaryClassifier *)

Lemma interleave_columns {A} (f : A -> A) (l : list A) :
  foldr (zip_with app) (replicate (length l) [])
        [chunks 1 (length l) (map f l); chunks 1 (length l) l]
  = map (fun p => [f p; p]) l.
Proof.
  induction l as [|x l IH]; simpl in *; [done|].
  f_equal. exact IH.
Qed.

Lemma chunks_pairs {A} (f : A -> A) (l : list A) :
  chunks 2 (length l) (concat (map (fun p => [f p; p]) l))
  = map (fun p => [f p; p]) l.
Proof.
  induction l as [|x l IH]; simpl in *; [done|].
  f_equal. exact IH.
Qed.

Lemma concat_second_of_pairs {A} (f : A -> A) (l : list A) :
  concat (map (fun r => take 1 (drop 1 r)) (map (fun p => [f p; p]) l)) = l.
Proof.
  induction l as [|x l IH]; simpl in *; [done|].
  f_equal. exact IH.
Qed.

(** [np.hstack((1 - y_proba, y_proba))] on a column. *)
Lemma np_hstack_complement (f : Qc -> Qc) (c : ndarray Qc) :
  np_hstack [np_map f (np_reshape_m1_1 c); np_reshape_m1_1 c]
  = Ok (mk_ndarray [length (data c); 2]
          (concat (map (fun p => [f p; p]) (data c)))).
Proof.
  unfold np_hstack, np_concatenate1. simpl.
  unfold same_outer, np_atleast_1d, rows. simpl.
  rewrite !bool_decide_eq_true_2 by done. simpl.
  pose proof (interleave_columns f (data c)) as Hcols. simpl in Hcols.
  by rewrite Hcols.
Qed.

Lemma predict_proba_loop (nonlin : tensor -> tensor)
  (ys : list (output value)) (ps : list value)
  (y_probas : list (ndarray Qc)) :
  rmapM posterior_of ys = Ok ps ->
  for_loop (predict_proba_body nonlin) ys y_probas
  = Ok (y_probas ++ batch_means nonlin ps).
Proof.
  revert ps y_probas.
  induction ys as [|yi ys IH]; intros ps y_probas Hps; simpl in *.
  - injection Hps as <-. simpl. by rewrite app_nil_r.
  - unfold predict_proba_body at 1.
    destruct (posterior_of yi) as [p|e]; simpl in *; [|done].
    destruct (rmapM posterior_of ys) as [ps'|e] eqn:Hps'; simpl in *; [|done].
    injection Hps as <-. rewrite (IH ps') by done. simpl.
    by rewrite <- app_assoc.
Qed.

(** The class labels [predict] assigns to a column of probabilities. *)
Definition labels (threshold : Qc) (probs : list Qc) : list N :=
  map (fun p => if bool_decide (threshold < p)%Qc then 1%N else 0%N) probs.


End Probabilistic.

(** *** predict with return_cov *)

(** C10. [predict] with [return_cov=True] raises [NotImplementedError]
    whatever [return_std] is and returns the estimator as it received it.
    The statement quantifies over [forward_iter] and the other collaborators:
    the outcome does not depend on them, so none of them has run.  Both
    regressor classes take [predict] from the mixin. *)
Theorem predict_return_cov_not_implemented
  {value tensor input base_state : Type}
  (forward_iter :
     input -> bool -> string -> @net value base_state ->
     generated (output value) * @net value base_state)
  (get_predict_nonlinearity : @net value base_state -> tensor -> tensor)
  (to_numpy : tensor -> ndarray Qc) (mean stddev : value -> tensor)
  (X : input) (return_std : bool) (s : @net value base_state) :
  _GPRegressorPredictMixin_predict forward_iter get_predict_nonlinearity
    to_numpy mean stddev X return_std true s
  = (Raise (NotImplementedError return_cov_msg), s)
  /\ resolve ExactGPRegressor "predict" = Some _GPRegressorPredictMixin
  /\ resolve GPRegressor "predict" = Some _GPRegressorPredictMixin.
Proof.
  split; [|split].
  - unfold _GPRegressorPredictMixin_predict. by destruct return_std.
  - reflexivity.
  - reflexivity.
Qed.

(** ** Docstring templating: what the matcher finds *)

(** The strings a pattern matches, independently of the order in which the
    matcher tries them. *)
Inductive matches : regex -> pystr -> Prop :=
| matches_eps : matches Eps []
| matches_chr c : matches (Chr c) [c]
| matches_cls cs c : in_charset cs c = true -> matches (Cls cs) [c]
| matches_seq r1 r2 s1 s2 :
    matches r1 s1 -> matches r2 s2 -> matches (Seq r1 r2) (s1 ++ s2)
| matches_star cs s :
    forallb (in_charset cs) s = true -> matches (Star cs) s
| matches_rep r lo extra ss :
    lo <= length ss <= lo + extra ->
    Forall (matches r) ss ->
    matches (Rep r lo extra) (concat ss).

Ltac pieces :=
  repeat split; simpl; try done; try lia; try (by constructor).

(** A matcher step is sound for a set of strings when every success splits
    the subject into a string of the set and what the continuation got. *)
Definition sound_for (P : pystr -> Prop)
  (m : pystr -> cont -> option pystr) : Prop :=
  forall s k rest, m s k = Some rest ->
    exists x s', s = x ++ s' /\ P x /\ k s' = Some rest.

Lemma match_star_sound cs : sound_for (matches (Star cs)) (match_star cs).
Proof.
  intros s. induction s as [|c s IH]; intros k rest Hm; simpl in Hm.
  - exists [], []. pieces.
  - destruct (in_charset cs c) eqn:Hc.
    + destruct (match_star cs s k) as [r|] eqn:Hrec.
      * injection Hm as ->.
        destruct (IH _ _ Hrec) as (x & s' & -> & Hx & Hk).
        exists (c :: x), s'. split; [done|]. split; [|done].
        inversion Hx; subst. constructor. simpl. by rewrite Hc.
      * exists [], (c :: s). pieces.
    + exists [], (c :: s). pieces.
Qed.

Lemma match_upto_sound (P : pystr -> Prop) m n :
  sound_for P m ->
  forall s k rest, match_upto m n s k = Some rest ->
    exists ss s', s = concat ss ++ s' /\ length ss <= n /\ Forall P ss
                  /\ k s' = Some rest.
Proof.
  intros Hm. induction n as [|n IH]; intros s k rest Hr; simpl in Hr.
  - exists [], s. pieces.
  - destruct (m s (fun s1 => match_upto m n s1 k)) as [r|] eqn:Hstep.
    + injection Hr as ->.
      destruct (Hm _ _ _ Hstep) as (x & s1 & -> & Hx & Hk).
      destruct (IH _ _ _ Hk) as (ss & s' & -> & Hlen & Hss & Hk').
      exists (x :: ss), s'. simpl. rewrite <- app_assoc.
      pieces.
    + exists [], s. pieces.
Qed.

Lemma match_times_sound (P : pystr -> Prop) m lo extra :
  sound_for P m ->
  forall s k rest, match_times m lo extra s k = Some rest ->
    exists ss s', s = concat ss ++ s' /\ lo <= length ss <= lo + extra
                  /\ Forall P ss /\ k s' = Some rest.
Proof.
  intros Hm. induction lo as [|lo IH]; intros s k rest Hr; simpl in Hr.
  - destruct (match_upto_sound P m extra Hm _ _ _ Hr)
      as (ss & s' & -> & Hlen & Hss & Hk).
    exists ss, s'. pieces.
  - destruct (Hm _ _ _ Hr) as (x & s1 & -> & Hx & Hk).
    destruct (IH _ _ _ Hk) as (ss & s' & -> & Hlen & Hss & Hk').
    exists (x :: ss), s'. simpl. rewrite <- app_assoc.
    pieces.
Qed.

Lemma rmatch_sound r : sound_for (matches r) (rmatch r).
Proof.
  induction r as [|c|cs|r1 IH1 r2 IH2|cs|r IH lo extra];
    intros s k rest Hm; simpl in Hm.
  - exists [], s. pieces.
  - destruct s as [|d s]; [done|].
    destruct (Ascii.eqb_spec c d) as [->|]; [|done].
    exists [d], s. pieces.
  - destruct s as [|d s]; [done|].
    destruct (in_charset cs d) eqn:Hd; [|done].
    exists [d], s. pieces.
  - destruct (IH1 _ _ _ Hm) as (x1 & s1 & -> & Hx1 & Hk1).
    destruct (IH2 _ _ _ Hk1) as (x2 & s2 & -> & Hx2 & Hk2).
    exists (x1 ++ x2), s2. rewrite <- app_assoc.
    pieces.
  - by apply match_star_sound.
  - destruct (match_times_sound _ _ lo extra IH _ _ _ Hm)
      as (ss & s' & -> & Hlen & Hss & Hk).
    exists (concat ss), s'. pieces.
Qed.

Lemma re_match_sound r s n :
  re_match r s = Some n ->
  exists m post, s = m ++ post /\ matches r m /\ n = length m.
Proof.
  unfold re_match. destruct (rmatch r s Some) as [rest|] eqn:Hm; [|done].
  intros [= <-]. destruct (rmatch_sound r _ _ _ Hm) as (m & s' & -> & Hx & Hk).
  injection Hk as ->. exists m, rest. split; [done|]. split; [done|].
  rewrite length_app. lia.
Qed.

(** [search] returns the leftmost position at which the pattern matches. *)
Lemma search_from_sound r s i a b :
  search_from r s i = Some (a, b) ->
  exists pre m post,
    s = pre ++ m ++ post /\ matches r m
    /\ a = i + length pre /\ b = a + length m
    /\ forall j, j < length pre -> re_match r (drop j s) = None.
Proof.
  revert i. induction s as [|c s IH]; intros i Hs; simpl in Hs.
  - destruct (re_match r []) as [n|] eqn:Hm; [|done].
    injection Hs as <- <-.
    destruct (re_match_sound _ _ _ Hm) as (m & post & Heq & Hx & ->).
    exists [], m, post. pieces.
  - destruct (re_match r (c :: s)) as [n|] eqn:Hm.
    + injection Hs as <- <-.
      destruct (re_match_sound _ _ _ Hm) as (m & post & Heq & Hx & ->).
      exists [], m, post. pieces.
    + destruct (IH _ Hs) as (pre & m & post & -> & Hx & -> & -> & Hleft).
      exists (c :: pre), m, post.
      split; [done|]. split; [done|]. split; [simpl; lia|].
      split; [simpl; lia|].
      intros [|j] Hj; [done|]. simpl. apply Hleft. simpl in Hj. lia.
Qed.














(** *** str.find *)

Lemma startswith_app sub s :
  startswith sub s = true -> s = sub ++ drop (length sub) s.
Proof.
  revert s. induction sub as [|c sub IH]; intros s Hs; simpl in *; [done|].
  destruct s as [|d s]; [done|].
  apply andb_prop in Hs as [Hc Hs]. apply Ascii.eqb_eq in Hc as ->.
  simpl. f_equal. by apply IH.
Qed.

Lemma find_from_found sub s i j :
  find_from sub s i = Some j ->
  exists k, j = i + k /\ k <= length s /\ drop k s = sub ++ drop (length sub) (drop k s).
Proof.
  revert i. induction s as [|c s IH]; intros i Hf; simpl in Hf.
  - destruct (startswith sub []) eqn:Hs; [|done].
    injection Hf as <-. exists 0. split; [lia|]. split; [done|].
    by apply startswith_app.
  - destruct (startswith sub (c :: s)) eqn:Hs.
    + injection Hf as <-. exists 0. split; [lia|]. split; [simpl; lia|].
      by apply startswith_app.
    + destruct (IH _ Hf) as (k & -> & Hk & Hd).
      exists (S k). split; [lia|]. split; [simpl; lia|]. done.
Qed.

(** *** The start of the document is never matched *)







Lemma slice_from_nat (s : pystr) (i : nat) :
  slice_from s (Z.of_nat i) = drop i s.
Proof.
  unfold slice_from. destruct (Z.ltb_spec (Z.of_nat i) 0) as [Hneg|_]; [lia|].
  by rewrite Nat2Z.id.
Qed.


(** *** get_exact_gp_regr_doc *)



(** *** Documents on which the searches can and cannot all succeed *)








(** ** A small estimator to run the methods on *)

(** Python objects of the example: a Gaussian over a few points, an instance
    built from keyword arguments, a class, [None]. *)
Inductive sample_value : Type :=
| SDist (mu sigma : list Qc)
| SInst (cls : string) (kwargs : list (string * sample_value))
| SClass (name : string)
| SNone.

Definition quarter : Qc := Q2Qc (1 # 4).
Definition three_quarters : Qc := Q2Qc (3 # 4).
Definition half : Qc := Q2Qc (1 # 2).

Definition sample_net (c : py_class) (fitted : bool)
  : @net sample_value unit :=
  mk_net c (SClass "BernoulliLikelihood") (SClass "VariationalELBO") half
         (if fitted then Some (SInst "BernoulliLikelihood" []) else None)
         (if fitted then Some (SInst "Module" []) else None)
         None tt.

(** Inputs are lists of batches, a batch being the points it holds. *)
Definition sample_forward_iter (X : list (list Qc)) (training : bool)
  (device : string) (s : @net sample_value unit)
  : generated (output sample_value) * @net sample_value unit :=
  match module_ s with
  | Some _ => ((map (fun xs => Single (SDist xs (map (fun _ => quarter) xs))) X,
                None), s)
  | None => (([], Some (NotInitializedError "not initialized")), s)
  end.

Definition sample_check_is_fitted (s : @net sample_value unit) : result unit :=
  match module_ s with
  | Some _ => Ok tt
  | None => Raise (NotInitializedError "not initialized")
  end.

Definition sample_infer (grad : bool) (Xi : list (list Qc))
  : M (@net sample_value unit) (output sample_value) :=
  ret (Tuple [SDist (concat Xi) []; SNone]).

Definition vector (l : list Qc) : ndarray Qc := mk_ndarray [length l] l.

Definition sample_mean (v : sample_value) : ndarray Qc :=
  match v with
  | SDist mu _ => vector mu
  | _ => vector []
  end.

Definition sample_stddev (v : sample_value) : ndarray Qc :=
  match v with
  | SDist _ sigma => vector sigma
  | _ => vector []
  end.

(** The likelihood of the example widens the distribution it is given. *)
Definition sample_call (f v : sample_value) : result sample_value :=
  match v with
  | SDist mu sigma => Ok (SDist mu (map (fun _ => half) mu))
  | _ => Raise (TypeError "not a distribution")
  end.

Definition sample_call_kwargs (f : sample_value)
  (kwargs : gmap string sample_value) : result sample_value :=
  match f with
  | SClass name => Ok (SInst name (map_to_list kwargs))
  | _ => Raise (TypeError "object is not callable")
  end.

Definition sample_params (prefix : string) (s : @net sample_value unit)
  : gmap string sample_value :=
  if String.eqb prefix "criterion" then {[ "num_data" := SNone ]} else ∅.

Definition sample_step : gmap string sample_value :=
  <["loss" := SNone]> {[ "y_pred" := SDist [quarter] [quarter] ]}.

Definition sample_train_step_single (b : list (list Qc) * sample_value)
  (fp : unit) : M (@net sample_value unit) (gmap string sample_value) :=
  ret sample_step.

Definition sample_X : list (list Qc) :=
  [[quarter; three_quarters]; [half]].

(** *** The methods on the example *)

Lemma GPBase_forward_list_witness :
  GPBase_forward sample_forward_iter sample_X false "cpu"
    (sample_net GPRegressor true)
  = (Ok [Single (SDist [quarter; three_quarters] [quarter; quarter]);
         Single (SDist [half] [quarter])],
     sample_net GPRegressor true).
Proof.
  exact (proj1 (GPBase_forward_list sample_forward_iter sample_X false "cpu"
                  (sample_net GPRegressor true) (sample_net GPRegressor true)
                  _ eq_refl)).
Defined.

Lemma GPBase_initialize_criterion_kwargs_witness :
  exists kwargs : gmap string sample_value,
    kwargs !! "likelihood" = Some (SInst "BernoulliLikelihood" [])
    /\ kwargs !! "model" = Some (SInst "Module" [])
    /\ kwargs !! "num_data" = Some SNone
    /\ GPBase_initialize_criterion sample_params sample_call_kwargs
         (sample_net GPBinaryClassifier true)
       = (Ok tt,
          set_criterion_ (SInst "VariationalELBO" (map_to_list kwargs))
            (sample_net GPBinaryClassifier true)).
Proof.
  destruct (GPBase_initialize_criterion_kwargs sample_params
              sample_call_kwargs (sample_net GPBinaryClassifier true)
              (SInst "BernoulliLikelihood" []) (SInst "Module" [])
              eq_refl eq_refl eq_refl eq_refl)
    as (kwargs & Hll & Hm & Hrest & Hok & _ & _).
  exists kwargs. split; [exact Hll|]. split; [exact Hm|]. split.
  - rewrite Hrest by discriminate. reflexivity.
  - exact (proj1 (Hok _ eq_refl)).
Defined.

Lemma GPBase_train_step_single_frame_witness :
  exists step' : gmap string sample_value,
    GPBase_train_step_single sample_train_step_single sample_call
      ([[quarter]], SNone) tt (sample_net GPRegressor true)
    = (Ok step', sample_net GPRegressor true)
    /\ step' !! "y_pred" = Some (SDist [quarter] [half])
    /\ step' !! "loss" = Some SNone.
Proof.
  destruct (GPBase_train_step_single_frame sample_train_step_single
              sample_call ([[quarter]], SNone) tt
              (sample_net GPRegressor true) (sample_net GPRegressor true)
              sample_step (SInst "BernoulliLikelihood" [])
              (SDist [quarter] [quarter]) (SDist [quarter] [half])
              eq_refl eq_refl eq_refl eq_refl)
    as (step' & Hrun & Hy & _ & Hloss & _).
  exists step'. split; [exact Hrun|]. split; [exact Hy|].
  rewrite Hloss. reflexivity.
Defined.

Lemma GPBase_evaluation_step_checked_witness :
  GPBase_evaluation_step sample_check_is_fitted sample_infer
    (fun b : list (list Qc) * sample_value => Ok b) sample_call
    (fun (_ : bool) (m : sample_value) => m)
    ([[quarter]; [half]], SNone) false (sample_net GPRegressor false)
  = (Raise (NotInitializedError "not initialized"),
     sample_net GPRegressor false)
  /\ GPBase_evaluation_step sample_check_is_fitted sample_infer
       (fun b : list (list Qc) * sample_value => Ok b) sample_call
       (fun (_ : bool) (m : sample_value) => m)
       ([[quarter]; [half]], SNone) false (sample_net GPRegressor true)
     = (Ok (Tuple [SDist [quarter; half] [half; half]; SNone]),
        sample_net GPRegressor true).
Proof.
  split.
  - exact (proj1 (GPBase_evaluation_step_checked sample_check_is_fitted
                    sample_infer (fun b => Ok b) sample_call (fun _ m => m)
                    ([[quarter]; [half]], SNone) false
                    (sample_net GPRegressor false))
             _ eq_refl).
  - exact (proj2 (proj2 (GPBase_evaluation_step_checked sample_check_is_fitted
                           sample_infer (fun b => Ok b) sample_call
                           (fun _ m => m)
                           ([[quarter]; [half]], SNone) false
                           (sample_net GPRegressor true))
                    [[quarter]; [half]] SNone (SInst "Module" [])
                    (sample_net GPRegressor true)
                    (SInst "BernoulliLikelihood" [])
                    (Tuple [SDist [quarter; half] []; SNone])
                    eq_refl eq_refl eq_refl eq_refl eq_refl)
             (SDist [quarter; half] []) [SNone]
             (SDist [quarter; half] [half; half]) eq_refl eq_refl).
Defined.

Lemma predict_proba_not_implemented_witness :
  predict_proba sample_forward_iter (fun _ t => t)
    (fun _ => ret (vector [])) (fun t => t) float32_round sample_mean
    sample_X (sample_net ExactGPRegressor false)
  = (Raise (AttributeError
              "'predict_proba' is not implemented for ExactGPRegressor"),
     sample_net ExactGPRegressor false).
Proof.
  refine (proj1 (predict_proba_not_implemented sample_forward_iter
                   (fun _ t => t) (fun _ => ret (vector [])) (fun t => t)
                   float32_round sample_mean sample_X
                   (sample_net ExactGPRegressor false) _)).
  simpl. apply list_elem_of_further, list_elem_of_here.
Defined.



(** In single precision the probabilities of the example need no rounding. *)
Example sample_rounding :
  map float32_round [(1 - quarter)%Qc; (1 - three_quarters)%Qc; half]
  = [three_quarters; quarter; half].
Proof.
  cbn [map]. f_equal; [|f_equal; [|f_equal]];
    apply Qc_is_canon; vm_compute; reflexivity.
Qed.

(** *** A probability above the threshold that is labelled 0

    0.1 as a Python float, the threshold, and the float32 nearest to 0.1,
    which is larger. *)
Definition float64_tenth : Qc := float64_round (Q2Qc (1 # 10)).
Definition float32_tenth : Qc := float32_round (Q2Qc (1 # 10)).

Example tenths :
  this float64_tenth = (3602879701896397 # 36028797018963968)%Q
  /\ this float32_tenth = (13421773 # 134217728)%Q
  /\ float32_round float64_tenth = float32_tenth.
Proof.
  split; [vm_compute; reflexivity|]. split; [vm_compute; reflexivity|].
  apply Qc_is_canon. vm_compute. reflexivity.
Qed.




Example sample_labels :
  labels half [quarter; three_quarters; half] = [0%N; 1%N; 0%N].
Proof. vm_compute. reflexivity. Qed.

(** *** The class hierarchy *)

Lemma py_class_eqb_eq a b : py_class_eqb a b = true <-> a = b.
Proof. destruct a, b; simpl; split; congruence. Qed.

Example mro_ExactGPRegressor :
  __mro__ ExactGPRegressor =
  [ExactGPRegressor; _GPRegressorPredictMixin; GPBase; NeuralNet; object].
Proof. reflexivity. Qed.

Example mro_GPBinaryClassifier :
  __mro__ GPBinaryClassifier = [GPBinaryClassifier; GPBase; NeuralNet; object].
Proof. reflexivity. Qed.

Example resolve_get_loss :
  map (fun c => resolve c "get_loss") gp_estimators
  = [Some GPBase; Some GPBase; Some GPBase; Some GPBase].
Proof. reflexivity. Qed.

Example resolve_initialize_module :
  map (fun c => resolve c "initialize_module") gp_estimators
  = [Some GPBase; Some ExactGPRegressor; Some GPBase; Some GPBase].
Proof. reflexivity. Qed.

(** [get_loss] on a loss with one entry per sample. *)
Example sample_get_loss :
  GPBase_get_loss
    (fun (_ _ : sample_value) (_ : option (list (list Qc))) (_ : bool) =>
       ret (vector [quarter; three_quarters]))
    SNone SNone None false (sample_net GPRegressor true)
  = (Ok (mk_ndarray [] [(- half)%Qc]), sample_net GPRegressor true).
Proof.
  unfold GPBase_get_loss, bind, ret. simpl. repeat f_equal.
  all: try by apply Qc_is_canon.
Qed.

(** * Further properties of the estimators *)

From Stdlib Require Import Lqa.

(** Arithmetic on probabilities. *)
Lemma Qc_half_lt (p : Qc) : (Q2Qc (1 # 2) < p)%Qc <-> (1 - p < p)%Qc.
Proof.
  unfold Qclt, Qcminus, Qcplus, Qcopp. cbn [this Q2Qc].
  rewrite !Qred_correct. split; intros Hlt; lra.
Qed.

Lemma Qc_complement_range (p : Qc) :
  (0 <= p)%Qc -> (p <= 1)%Qc -> (0 <= 1 - p)%Qc /\ (1 - p <= 1)%Qc.
Proof.
  unfold Qcle, Qcminus, Qcplus, Qcopp. cbn [this Q2Qc].
  rewrite !Qred_correct. intros H0 H1; split; lra.
Qed.

(** * Rounding keeps the order

    The rounding of a binary format is monotone, which is what the
    properties of the classifier ask of a dtype. *)

Section Rounding.
Local Open Scope Q_scope.

Lemma round_half_even_bounds (q : Q) :
  (Qfloor q <= round_half_even q <= Qfloor q + 1)%Z.
Proof.
  unfold round_half_even.
  destruct (q - inject_Z (Qfloor q) ?= 1 # 2); [|lia|lia].
  destruct (Z.even (Qfloor q)); lia.
Qed.

Lemma round_half_even_le (x y : Q) :
  x <= y -> (round_half_even x <= round_half_even y)%Z.
Proof.
  intros Hxy. pose proof (Qfloor_resp_le _ _ Hxy) as Hfloor.
  destruct (Z.eq_dec (Qfloor x) (Qfloor y)) as [Heq|Hne].
  - unfold round_half_even. rewrite <- Heq.
    destruct (Qcompare_spec (x - inject_Z (Qfloor x)) (1 # 2)) as [Hx|Hx|Hx];
      destruct (Qcompare_spec (y - inject_Z (Qfloor x)) (1 # 2))
        as [Hy|Hy|Hy];
      try destruct (Z.even (Qfloor x)); try lia; exfalso; lra.
  - pose proof (round_half_even_bounds x). pose proof (round_half_even_bounds y).
    lia.
Qed.

Lemma round_half_even_Z (q : Q) (n : Z) :
  q == inject_Z n -> round_half_even q = n.
Proof.
  intros Hq. unfold round_half_even.
  rewrite (Qfloor_comp _ _ Hq), Qfloor_Z.
  assert (Hc : (q - inject_Z n ?= 1 # 2) = Lt).
  { apply (proj1 (Qlt_alt _ _)). rewrite Hq. lra. }
  by rewrite Hc.
Qed.

Lemma pow2_pos (e : Z) : 0 < pow2 e.
Proof. by apply Qpower_0_lt. Qed.

Lemma pow2_le (a b : Z) : (a <= b)%Z -> pow2 a <= pow2 b.
Proof. intros Hab. by apply Qpower_le_compat_l. Qed.

Lemma pow2_add (a b : Z) : pow2 (a + b) == pow2 a * pow2 b.
Proof. by apply Qpower_plus. Qed.

Lemma pow2_Z (e : Z) : (0 <= e)%Z -> pow2 e == inject_Z (2 ^ e).
Proof. intros He. unfold pow2. by rewrite (Zpower_Qpower 2%Z e He). Qed.

(** Rounding to the multiples of [2 ^ e]. *)
Definition grid (e : Z) (q : Q) : Q :=
  inject_Z (round_half_even (q / pow2 e)) * pow2 e.

Lemma grid_le (e : Z) (x y : Q) : x <= y -> grid e x <= grid e y.
Proof.
  intros Hxy. unfold grid. pose proof (pow2_pos e) as Hpos.
  apply Qmult_le_compat_r; [|lra].
  rewrite <- Zle_Qle. apply round_half_even_le.
  apply Qle_shift_div_l; [done|].
  rewrite Qmult_comm, Qmult_div_r; [done | lra].
Qed.

Lemma grid_fixes (e k : Z) (q : Q) :
  q == inject_Z k * pow2 e -> grid e q == q.
Proof.
  intros Hq. unfold grid. pose proof (pow2_pos e) as Hpos.
  rewrite (round_half_even_Z (q / pow2 e) k); [by rewrite Hq|].
  rewrite Hq. apply Qdiv_mult_l. lra.
Qed.

(** A power of two not below the spacing of the grid lies on it. *)
Lemma grid_fixes_pow2 (e l : Z) (sign : Z) (q : Q) :
  (e <= l)%Z -> q == inject_Z sign * pow2 l -> grid e q == q.
Proof.
  intros Hel Hq. apply (grid_fixes e (sign * 2 ^ (l - e))%Z).
  rewrite Hq, inject_Z_mult, <- (pow2_Z (l - e)) by lia.
  rewrite <- Qmult_assoc, <- pow2_add.
  by replace (l - e + e)%Z with l by lia.
Qed.

(** [Qlog2] gives the binade of a rational. *)
Lemma Qlog2_spec (q : Q) :
  ~ q == 0 -> pow2 (Qlog2 q) <= Qabs q /\ Qabs q < pow2 (Qlog2 q + 1).
Proof.
  intros Hq. destruct q as [n d].
  assert (Hn : (0 < Z.abs n)%Z).
  { destruct (Z.eq_dec n 0%Z) as [->|Hn]; [by destruct Hq|lia]. }
  pose proof (Z.log2_spec _ Hn) as [Hn1 Hn2].
  pose proof (Z.log2_spec (Z.pos d) (Pos2Z.is_pos d)) as [Hd1 Hd2].
  pose proof (Z.log2_nonneg (Z.abs n)) as Ha.
  pose proof (Z.log2_nonneg (Z.pos d)) as Hb.
  set (a := Z.log2 (Z.abs n)) in *. set (b := Z.log2 (Z.pos d)) in *.
  assert (Habs : Qabs (n # d) == inject_Z (Z.abs n) / inject_Z (Z.pos d)).
  { by rewrite <- Zabs_Qabs, Qmake_Qdiv. }
  assert (Hdpos : 0 < inject_Z (Z.pos d)).
  { rewrite <- (Zlt_Qlt 0%Z). lia. }
  (* the two bounds that hold whatever the test says *)
  assert (Hlow : pow2 (a - b - 1) < Qabs (n # d)).
  { rewrite Habs. apply Qlt_shift_div_l; [done|].
    replace (a - b - 1)%Z with (a + - (b + 1))%Z by lia.
    rewrite pow2_add. unfold pow2 at 2. rewrite Qpower_opp.
    fold (pow2 (b + 1)). rewrite (pow2_Z a), (pow2_Z (b + 1)) by lia.
    apply Qlt_le_trans with (inject_Z (2 ^ a)).
    - rewrite <- Qmult_assoc.
      rewrite <- (Qmult_1_r (inject_Z (2 ^ a))) at 2.
      assert (H2a : 0 < inject_Z (2 ^ a)).
      { rewrite <- (Zlt_Qlt 0%Z). lia. }
      assert (H2b : 0 < inject_Z (2 ^ (b + 1))).
      { rewrite <- (Zlt_Qlt 0%Z). lia. }
      apply Qmult_lt_l; [done|].
      rewrite Qmult_comm.
      change (inject_Z (Z.pos d) / inject_Z (2 ^ (b + 1)) < 1).
      apply Qlt_shift_div_r; [done|].
      rewrite Qmult_1_l, <- Zlt_Qlt. lia.
    - rewrite <- Zle_Qle. lia. }
  assert (Hhigh : Qabs (n # d) < pow2 (a - b + 1)).
  { rewrite Habs. apply Qlt_shift_div_r; [done|].
    replace (a - b + 1)%Z with (a + 1 + - b)%Z by lia.
    rewrite pow2_add. unfold pow2 at 2. rewrite Qpower_opp.
    fold (pow2 b). rewrite (pow2_Z (a + 1)), (pow2_Z b) by lia.
    apply Qlt_le_trans with (inject_Z (2 ^ (a + 1))).
    - rewrite <- Zlt_Qlt. lia.
    - assert (H2a : 0 < inject_Z (2 ^ (a + 1))).
      { rewrite <- (Zlt_Qlt 0%Z). lia. }
      assert (H2b : 0 < inject_Z (2 ^ b)).
      { rewrite <- (Zlt_Qlt 0%Z). lia. }
      rewrite <- Qmult_assoc.
      rewrite <- (Qmult_1_r (inject_Z (2 ^ (a + 1)))) at 1.
      apply Qmult_le_l; [done|].
      rewrite Qmult_comm.
      change (1 <= inject_Z (Z.pos d) / inject_Z (2 ^ b)).
      apply Qle_shift_div_l; [done|].
      rewrite Qmult_1_l, <- Zle_Qle. lia. }
  unfold Qlog2. cbn [Qnum Qden]. fold a b.
  destruct (Qle_bool (pow2 (a - b)) (Qabs (n # d))) eqn:Htest.
  - split; [by apply Qle_bool_imp_le | done].
  - split; [by apply Qlt_le_weak|].
    replace (a - b - 1 + 1)%Z with (a - b)%Z by lia.
    apply Qnot_le_lt. intros Hle. apply (proj2 (Qle_bool_iff _ _)) in Hle.
    congruence.
Qed.

Lemma Qlog2_le (x y : Q) :
  ~ x == 0 -> ~ y == 0 -> Qabs x <= Qabs y -> (Qlog2 x <= Qlog2 y)%Z.
Proof.
  intros Hx Hy Hxy.
  destruct (Qlog2_spec x Hx) as [Hx1 _]. destruct (Qlog2_spec y Hy) as [_ Hy2].
  apply Z.lt_succ_r. apply Qpower_lt_compat_l_inv with (q := 2); [|done].
  fold (pow2 (Qlog2 x)) (pow2 (Z.succ (Qlog2 y))).
  unfold Z.succ. lra.
Qed.

Section Format.
Variables prec emin : Z.
Hypothesis prec_pos : (1 <= prec)%Z.

(** The exponent of the grid the format rounds [q] to. *)
Definition fexp (q : Q) : Z := Z.max (Qlog2 q - (prec - 1)) emin.

Lemma float_round_grid (q : Q) :
  ~ q == 0 -> float_round prec emin q = grid (fexp q) q.
Proof.
  intros Hq. unfold float_round.
  destruct (Qeq_bool q 0) eqn:Hz; [|done].
  by apply Qeq_bool_eq in Hz.
Qed.

Lemma float_round_0 (q : Q) : q == 0 -> float_round prec emin q = 0.
Proof.
  intros Hq. unfold float_round. by rewrite (Qeq_eq_bool _ _ Hq).
Qed.

Lemma fexp_le (x y : Q) :
  ~ x == 0 -> ~ y == 0 -> Qabs x <= Qabs y -> (fexp x <= fexp y)%Z.
Proof.
  intros Hx Hy Hxy. pose proof (Qlog2_le x y Hx Hy Hxy). unfold fexp. lia.
Qed.

(** Two rationals of the same sign, the one nearer to 0 first. *)
Lemma float_round_same_sign (sign : Z) (x y : Q) :
  sign = 1%Z \/ sign = (-1)%Z ->
  0 < Qabs x -> Qabs x <= Qabs y ->
  x == inject_Z sign * Qabs x -> y == inject_Z sign * Qabs y ->
  inject_Z sign * float_round prec emin x
  <= inject_Z sign * float_round prec emin y.
Proof using prec_pos.
  intros Hsign Hx0 Hxy Hsx Hsy.
  assert (Hx : ~ x == 0).
  { intros Hx. rewrite Hx in Hx0. by apply (Qlt_irrefl 0). }
  assert (Hy : ~ y == 0).
  { intros Hy. rewrite Hy in Hxy. change (Qabs 0) with 0 in Hxy. lra. }
  rewrite (float_round_grid x Hx), (float_round_grid y Hy).
  pose proof (fexp_le x y Hx Hy Hxy) as Hexp.
  (* the order of [x] and [y] themselves *)
  assert (Hord : forall u v : Q, inject_Z sign * u <= inject_Z sign * v ->
            if Z.eqb sign 1%Z then u <= v else v <= u).
  { intros u v. destruct Hsign as [-> | ->]; cbn [Z.eqb Pos.eqb];
      change (inject_Z 1) with 1; change (inject_Z (-1)) with (-1); lra. }
  assert (Hback : forall u v : Q,
            (if Z.eqb sign 1%Z then u <= v else v <= u) ->
            inject_Z sign * u <= inject_Z sign * v).
  { intros u v. destruct Hsign as [-> | ->]; cbn [Z.eqb Pos.eqb];
      change (inject_Z 1) with 1; change (inject_Z (-1)) with (-1); lra. }
  destruct (Z.eq_dec (fexp x) (fexp y)) as [Heq|Hne].
  - rewrite Heq. apply Hback.
    assert (Hxy' : inject_Z sign * x <= inject_Z sign * y).
    { rewrite Hsx, Hsy.
      destruct Hsign as [-> | ->];
        change (inject_Z 1) with 1; change (inject_Z (-1)) with (-1); lra. }
    apply Hord in Hxy'. destruct (Z.eqb sign 1); by apply grid_le.
  - (* [x] lies in a lower binade than [y]: the power of two between them
       is on both grids *)
    assert (Hlog : (Qlog2 x < Qlog2 y)%Z) by (unfold fexp in *; lia).
    destruct (Qlog2_spec x Hx) as [_ Hx2].
    destruct (Qlog2_spec y Hy) as [Hy1 _].
    set (B := inject_Z sign * pow2 (Qlog2 y)).
    assert (HxB : Qabs x <= pow2 (Qlog2 y)).
    { apply Qle_trans with (pow2 (Qlog2 x + 1)); [lra|]. apply pow2_le. lia. }
    assert (HBx : grid (fexp x) B == B).
    { apply (grid_fixes_pow2 _ (Qlog2 y) sign); [unfold fexp in *; lia|done]. }
    assert (HBy : grid (fexp y) B == B).
    { apply (grid_fixes_pow2 _ (Qlog2 y) sign); [unfold fexp in *; lia|done]. }
    apply Qle_trans with (inject_Z sign * B).
    + rewrite <- HBx at 1. apply Hback.
      assert (Hle : inject_Z sign * x <= inject_Z sign * B).
      { rewrite Hsx. unfold B.
        destruct Hsign as [-> | ->];
          change (inject_Z 1) with 1; change (inject_Z (-1)) with (-1); lra. }
      apply Hord in Hle. destruct (Z.eqb sign 1); by apply grid_le.
    + rewrite <- HBy at 1. apply Hback.
      assert (Hle : inject_Z sign * B <= inject_Z sign * y).
      { rewrite Hsy. unfold B.
        destruct Hsign as [-> | ->];
          change (inject_Z 1) with 1; change (inject_Z (-1)) with (-1); lra. }
      apply Hord in Hle. destruct (Z.eqb sign 1); by apply grid_le.
Qed.

Lemma float_round_nonneg (q : Q) : 0 <= q -> 0 <= float_round prec emin q.
Proof.
  intros Hq. destruct (Qeq_dec q 0) as [Hz|Hnz].
  - rewrite (float_round_0 q Hz). lra.
  - rewrite (float_round_grid q Hnz).
    rewrite <- (grid_fixes (fexp q) 0%Z 0) at 1; [by apply grid_le|].
    change (inject_Z 0) with 0. lra.
Qed.

Lemma float_round_nonpos (q : Q) : q <= 0 -> float_round prec emin q <= 0.
Proof.
  intros Hq. destruct (Qeq_dec q 0) as [Hz|Hnz].
  - rewrite (float_round_0 q Hz). lra.
  - rewrite (float_round_grid q Hnz).
    rewrite <- (grid_fixes (fexp q) 0%Z 0) at 1; [by apply grid_le|].
    change (inject_Z 0) with 0. lra.
Qed.

Theorem float_round_le (x y : Q) :
  x <= y -> float_round prec emin x <= float_round prec emin y.
Proof using prec_pos.
  intros Hxy.
  destruct (Qlt_le_dec 0 x) as [Hx|Hx].
  - (* both positive *)
    pose proof (float_round_same_sign 1%Z x y (or_introl eq_refl)) as Hpos.
    rewrite !(Qabs_pos x), !(Qabs_pos y) in Hpos by lra.
    change (inject_Z 1) with 1 in Hpos.
    rewrite !Qmult_1_l in Hpos. apply Hpos; [done|done|lra|lra].
  - destruct (Qlt_le_dec y 0) as [Hy|Hy].
    + (* both negative *)
      pose proof (float_round_same_sign (-1)%Z y x (or_intror eq_refl)) as Hneg.
      rewrite !(Qabs_neg x), !(Qabs_neg y) in Hneg by lra.
      change (inject_Z (-1)) with (-1) in Hneg.
      assert (Hgoal : -1 * float_round prec emin y
                      <= -1 * float_round prec emin x).
      { apply Hneg; lra. }
      lra.
    + apply Qle_trans with 0;
        [by apply float_round_nonpos | by apply float_round_nonneg].
Qed.

End Format.

(** The dtypes float32 and float64 keep the order. *)
Lemma float32_round_le (a b : Qc) :
  (a <= b)%Qc -> (float32_round a <= float32_round b)%Qc.
Proof.
  unfold Qcle, float32_round. cbn [this Q2Qc]. rewrite !Qred_correct.
  apply float_round_le. lia.
Qed.

Lemma float64_round_le (a b : Qc) :
  (a <= b)%Qc -> (float64_round a <= float64_round b)%Qc.
Proof.
  unfold Qcle, float64_round. cbn [this Q2Qc]. rewrite !Qred_correct.
  apply float_round_le. lia.
Qed.

End Rounding.

(** 0, one half and 1 are floats. *)
Lemma float32_round_exact :
  float32_round 0%Qc = 0%Qc
  /\ float32_round (Q2Qc (1 # 2)) = Q2Qc (1 # 2)
  /\ float32_round 1%Qc = 1%Qc.
Proof.
  split; [|split]; apply Qc_is_canon; vm_compute; reflexivity.
Qed.

(** What a caller that only wants the first output of the module keeps of a
    yielded value. *)
Definition first_output {value} (yi : output value) : output value :=
  match yi with
  | Tuple (y0 :: _) => Single y0
  | _ => yi
  end.

Section Predictions.
Local Open Scope py_scope.
Context {value tensor input base_state : Type}.

Variable NeuralNet_forward_iter :
  input -> bool -> string -> @net value base_state ->
  generated (output value) * @net value base_state.
Variable NeuralNet__get_predict_nonlinearity :
  @net value base_state -> tensor -> tensor.
Variable NeuralNet_predict_proba :
  input -> M (@net value base_state) (ndarray Qc).
Variable to_numpy : tensor -> ndarray Qc.
Variable dtype_round : Qc -> Qc.
Variable mean stddev : value -> tensor.

Lemma for_loop_ext {A St} (f g : A -> St -> result St) (xs : list A) :
  (forall x acc, f x acc = g x acc) ->
  forall acc, for_loop f xs acc = for_loop g xs acc.
Proof.
  intros Hfg. induction xs as [|x xs IH]; intros acc; simpl; [done|].
  rewrite Hfg. destruct (g x acc); simpl; [apply IH | done].
Qed.

Lemma for_loop_map {A B St} (h : A -> B) (f : B -> St -> result St)
  (xs : list A) (acc : St) :
  for_loop f (map h xs) acc = for_loop (fun x => f (h x)) xs acc.
Proof.
  revert acc. induction xs as [|x xs IH]; intros acc; simpl; [done|].
  destruct (f (h x) acc); simpl; [apply IH | done].
Qed.

Lemma posterior_of_first_output (yi : output value) :
  posterior_of (first_output yi) = posterior_of yi.
Proof. by destruct yi as [y|[|y0 rest]]. Qed.

(** X1. On an input the data loader yields no batch for, [predict] of the
    regressors raises the [ValueError] of [np.concatenate] for an empty list,
    with or without [return_std], and so does [predict_proba] of the binary
    classifier; the estimator is left as [forward_iter] left it. *)
Theorem predict_no_batches (X : input) (return_std : bool)
  (s s' : @net value base_state) :
  NeuralNet_forward_iter X false "cpu" s = (([], None), s') ->
  _GPRegressorPredictMixin_predict NeuralNet_forward_iter
    NeuralNet__get_predict_nonlinearity to_numpy mean stddev
    X return_std false s
  = (Raise (ValueError "need at least one array to concatenate"), s')
  /\ GPBinaryClassifier_predict_proba NeuralNet_forward_iter
       NeuralNet__get_predict_nonlinearity to_numpy dtype_round mean X s
     = (Raise (ValueError "need at least one array to concatenate"), s').
Proof.
  intros Hiter. split.
  - unfold _GPRegressorPredictMixin_predict, for_gen. rewrite Hiter.
    by destruct return_std.
  - unfold GPBinaryClassifier_predict_proba, for_gen. by rewrite Hiter.
Qed.

(** X2. [predict] looks only at the first element of a module output that
    is a tuple: replacing every yielded tuple by its first element changes
    neither the result nor the exception of [predict]. *)
Theorem predict_first_output_only
  (forward_iter' :
     input -> bool -> string -> @net value base_state ->
     generated (output value) * @net value base_state)
  (X : input) (return_std return_cov : bool) (s s' : @net value base_state)
  (ys : list (output value)) (e : option exn) :
  NeuralNet_forward_iter X false "cpu" s = ((ys, e), s') ->
  forward_iter' X false "cpu" s = ((map first_output ys, e), s') ->
  _GPRegressorPredictMixin_predict forward_iter'
    NeuralNet__get_predict_nonlinearity to_numpy mean stddev
    X return_std return_cov s
  = _GPRegressorPredictMixin_predict NeuralNet_forward_iter
      NeuralNet__get_predict_nonlinearity to_numpy mean stddev
      X return_std return_cov s.
Proof.
  intros Hiter Hiter'. unfold _GPRegressorPredictMixin_predict.
  destruct return_cov; [done|]. rewrite Hiter, Hiter'. unfold for_gen.
  cbn [fst snd]. rewrite for_loop_map.
  rewrite (for_loop_ext _
             (predict_body to_numpy mean stddev
                (NeuralNet__get_predict_nonlinearity s) return_std)); [done|].
  intros yi acc. unfold predict_body.
  by rewrite posterior_of_first_output.
Qed.

(** X3. Without [return_std], [predict] never reads the standard deviation
    of a posterior: its outcome is the same for every [stddev]. *)
Theorem predict_without_std_ignores_stddev (stddev' : value -> tensor)
  (X : input) (return_cov : bool) (s : @net value base_state) :
  _GPRegressorPredictMixin_predict NeuralNet_forward_iter
    NeuralNet__get_predict_nonlinearity to_numpy mean stddev'
    X false return_cov s
  = _GPRegressorPredictMixin_predict NeuralNet_forward_iter
      NeuralNet__get_predict_nonlinearity to_numpy mean stddev
      X false return_cov s.
Proof.
  unfold _GPRegressorPredictMixin_predict. destruct return_cov; [done|].
  unfold for_gen.
  rewrite (for_loop_ext
             (predict_body to_numpy mean stddev'
                (NeuralNet__get_predict_nonlinearity s) false)
             (predict_body to_numpy mean stddev
                (NeuralNet__get_predict_nonlinearity s) false)); [done|].
  intros yi acc. unfold predict_body. by destruct (posterior_of yi).
Qed.

(** *** The binary classifier *)

Lemma Qc_half_complement (p : Qc) :
  ((Q2Qc (1 # 2) < p)%Qc -> (1 - p <= Q2Qc (1 # 2))%Qc)
  /\ (~ (Q2Qc (1 # 2) < p)%Qc -> (Q2Qc (1 # 2) <= 1 - p)%Qc).
Proof.
  unfold Qclt, Qcle, Qcminus, Qcplus, Qcopp. cbn [this Q2Qc].
  rewrite !Qred_correct. split; intros Hp; lra.
Qed.

Lemma GPBinaryClassifier_predict_proba_run (X : input)
  (s s' : @net value base_state) (ys : list (output value))
  (ps : list value) (c : ndarray Qc) :
  NeuralNet_forward_iter X false "cpu" s = ((ys, None), s') ->
  rmapM posterior_of ys = Ok ps ->
  np_concatenate0
    (batch_means to_numpy mean (NeuralNet__get_predict_nonlinearity s) ps)
  = Ok c ->
  GPBinaryClassifier_predict_proba NeuralNet_forward_iter
    NeuralNet__get_predict_nonlinearity to_numpy dtype_round mean X s
  = (Ok (mk_ndarray [length (data c); 2]
           (concat (map (fun p => [dtype_round (1 - p)%Qc; p]) (data c)))),
     s').
Proof.
  intros Hiter Hps Hcat.
  unfold GPBinaryClassifier_predict_proba, for_gen. rewrite Hiter.
  cbn [fst snd rbind].
  rewrite (predict_proba_loop _ _ _ ys ps [] Hps).
  cbn [rbind app]. rewrite Hcat. cbn [rbind].
  by rewrite (np_hstack_complement (fun p => dtype_round (1 - p)%Qc) c).
Qed.

Lemma GPBinaryClassifier_predict_run (X : input)
  (s s' : @net value base_state) (ys : list (output value))
  (ps : list value) (c : ndarray Qc) :
  __class__ s = GPBinaryClassifier ->
  NeuralNet_forward_iter X false "cpu" s = ((ys, None), s') ->
  rmapM posterior_of ys = Ok ps ->
  np_concatenate0
    (batch_means to_numpy mean (NeuralNet__get_predict_nonlinearity s) ps)
  = Ok c ->
  GPBinaryClassifier_predict NeuralNet_forward_iter
    NeuralNet__get_predict_nonlinearity NeuralNet_predict_proba to_numpy
    dtype_round mean X s
  = (Ok (mk_ndarray [length (data c)]
           (labels (dtype_round (threshold s')) (data c))), s').
Proof.
  intros Hcls Hiter Hps Hcat.
  unfold GPBinaryClassifier_predict, bind, predict_proba. rewrite Hcls.
  change (resolve GPBinaryClassifier "predict_proba")
    with (Some GPBinaryClassifier).
  rewrite (GPBinaryClassifier_predict_proba_run X s s' ys ps c Hiter Hps Hcat).
  unfold np_column1, rows. cbn [shape data product foldr Nat.ltb Nat.leb].
  rewrite chunks_pairs, concat_second_of_pairs.
  unfold astype_uint8, np_map, labels. cbn [rbind shape data].
  by rewrite map_map.
Qed.

(** X4. Raising the threshold of a binary classifier never turns a
    predicted 0 into a 1: for the same posterior means, every sample that
    [predict] labels 1 under the higher threshold is labelled 1 under the
    lower one.  This holds in every dtype whose rounding keeps the order. *)
Theorem GPBinaryClassifier_predict_threshold_monotone (X : input)
  (s1 s1' s2 s2' : @net value base_state) (ys : list (output value))
  (ps : list value) (c : ndarray Qc) (y1 y2 : ndarray N) :
  (forall a b : Qc, (a <= b)%Qc -> (dtype_round a <= dtype_round b)%Qc) ->
  __class__ s1 = GPBinaryClassifier ->
  __class__ s2 = GPBinaryClassifier ->
  NeuralNet_forward_iter X false "cpu" s1 = ((ys, None), s1') ->
  NeuralNet_forward_iter X false "cpu" s2 = ((ys, None), s2') ->
  rmapM posterior_of ys = Ok ps ->
  np_concatenate0
    (batch_means to_numpy mean (NeuralNet__get_predict_nonlinearity s1) ps)
  = Ok c ->
  np_concatenate0
    (batch_means to_numpy mean (NeuralNet__get_predict_nonlinearity s2) ps)
  = Ok c ->
  (threshold s1' <= threshold s2')%Qc ->
  GPBinaryClassifier_predict NeuralNet_forward_iter
    NeuralNet__get_predict_nonlinearity NeuralNet_predict_proba to_numpy
    dtype_round mean X s1 = (Ok y1, s1') ->
  GPBinaryClassifier_predict NeuralNet_forward_iter
    NeuralNet__get_predict_nonlinearity NeuralNet_predict_proba to_numpy
    dtype_round mean X s2 = (Ok y2, s2') ->
  shape y1 = shape y2
  /\ forall i, data y2 !! i = Some 1%N -> data y1 !! i = Some 1%N.
Proof.
  intros Hmono Hc1 Hc2 Hi1 Hi2 Hps Hcat1 Hcat2 Hle Hy1 Hy2.
  rewrite (GPBinaryClassifier_predict_run X s1 s1' ys ps c Hc1 Hi1 Hps Hcat1)
    in Hy1.
  rewrite (GPBinaryClassifier_predict_run X s2 s2' ys ps c Hc2 Hi2 Hps Hcat2)
    in Hy2.
  injection Hy1 as <-. injection Hy2 as <-. split; [done|].
  intros i. cbn [data]. unfold labels. rewrite !list_lookup_fmap.
  destruct (data c !! i) as [p|]; [|done]. simpl.
  destruct (bool_decide_reflect (dtype_round (threshold s2') < p)%Qc)
    as [Hlt|]; [|done].
  intros _. rewrite bool_decide_eq_true_2; [done|].
  apply Qcle_lt_trans with (dtype_round (threshold s2')); [|done].
  by apply Hmono.
Qed.

(** X5. With the threshold at one half, [predict] labels a sample 1 exactly
    when [predict_proba] gives class 1 strictly more probability than class
    0; a tie goes to class 0.  This holds in every dtype whose rounding
    keeps the order and represents one half. *)
Theorem GPBinaryClassifier_predict_half_is_argmax (X : input)
  (s s' : @net value base_state) (ys : list (output value))
  (ps : list value) (c : ndarray Qc) (y_proba : ndarray Qc)
  (y_pred : ndarray N) :
  (forall a b : Qc, (a <= b)%Qc -> (dtype_round a <= dtype_round b)%Qc) ->
  dtype_round (Q2Qc (1 # 2)) = Q2Qc (1 # 2) ->
  __class__ s = GPBinaryClassifier ->
  NeuralNet_forward_iter X false "cpu" s = ((ys, None), s') ->
  rmapM posterior_of ys = Ok ps ->
  np_concatenate0
    (batch_means to_numpy mean (NeuralNet__get_predict_nonlinearity s) ps)
  = Ok c ->
  threshold s' = Q2Qc (1 # 2) ->
  predict_proba NeuralNet_forward_iter NeuralNet__get_predict_nonlinearity
    NeuralNet_predict_proba to_numpy dtype_round mean X s
  = (Ok y_proba, s') ->
  GPBinaryClassifier_predict NeuralNet_forward_iter
    NeuralNet__get_predict_nonlinearity NeuralNet_predict_proba to_numpy
    dtype_round mean X s = (Ok y_pred, s') ->
  forall i p0 p1, rows y_proba !! i = Some [p0; p1] ->
    (data y_pred !! i = Some 1%N <-> (p0 < p1)%Qc)
    /\ (data y_pred !! i = Some 0%N <-> (p1 <= p0)%Qc).
Proof.
  intros Hmono Hhalf Hcls Hiter Hps Hcat Hthr Hproba Hpred.
  rewrite (GPBinaryClassifier_predict_run X s s' ys ps c Hcls Hiter Hps Hcat)
    in Hpred.
  unfold predict_proba in Hproba. rewrite Hcls in Hproba.
  change (resolve GPBinaryClassifier "predict_proba")
    with (Some GPBinaryClassifier) in Hproba.
  rewrite (GPBinaryClassifier_predict_proba_run X s s' ys ps c Hiter Hps Hcat)
    in Hproba.
  injection Hpred as <-. injection Hproba as <-.
  intros i p0 p1. unfold rows. cbn [shape data product foldr].
  change (1 * 1) with 1. change (2 * 1) with 2.
  rewrite chunks_pairs, list_lookup_fmap. unfold labels.
  rewrite list_lookup_fmap.
  destruct (data c !! i) as [p|]; [|done]. simpl.
  intros [= <- <-]. rewrite Hthr, Hhalf.
  destruct (Qc_half_complement p) as [Habove Hbelow].
  destruct (bool_decide_reflect (Q2Qc (1 # 2) < p)%Qc) as [Hlt|Hnlt].
  - assert (Hrow : (dtype_round (1 - p) < p)%Qc).
    { apply Qcle_lt_trans with (Q2Qc (1 # 2)); [|done].
      rewrite <- Hhalf. apply Hmono. by apply Habove. }
    split; split; intros Hx; try done.
    exfalso. by apply (Qclt_not_le _ _ Hrow).
  - assert (Hrow : (p <= dtype_round (1 - p))%Qc).
    { apply Qcle_trans with (Q2Qc (1 # 2)); [by apply Qcnot_lt_le|].
      rewrite <- Hhalf at 1. apply Hmono. by apply Hbelow. }
    split; split; intros Hx; try done.
    exfalso. by apply (Qclt_not_le _ _ Hx).
Qed.

(** X6. When every posterior mean (after the predict nonlinearity) lies
    between 0 and 1, so does every entry of [predict_proba], and the array
    holds two entries per sample.  This holds in every dtype whose rounding
    keeps the order and represents 0 and 1. *)
Theorem GPBinaryClassifier_predict_proba_range (X : input)
  (s s' : @net value base_state) (ys : list (output value))
  (ps : list value) (c : ndarray Qc) (y_proba : ndarray Qc) :
  (forall a b : Qc, (a <= b)%Qc -> (dtype_round a <= dtype_round b)%Qc) ->
  dtype_round 0%Qc = 0%Qc ->
  dtype_round 1%Qc = 1%Qc ->
  NeuralNet_forward_iter X false "cpu" s = ((ys, None), s') ->
  rmapM posterior_of ys = Ok ps ->
  np_concatenate0
    (batch_means to_numpy mean (NeuralNet__get_predict_nonlinearity s) ps)
  = Ok c ->
  Forall (fun p => (0 <= p)%Qc /\ (p <= 1)%Qc) (data c) ->
  GPBinaryClassifier_predict_proba NeuralNet_forward_iter
    NeuralNet__get_predict_nonlinearity to_numpy dtype_round mean X s
  = (Ok y_proba, s') ->
  Forall (fun q => (0 <= q)%Qc /\ (q <= 1)%Qc) (data y_proba)
  /\ length (data y_proba) = 2 * length (data c)
  /\ wf_ndarray y_proba.
Proof.
  intros Hmono Hzero Hone Hiter Hps Hcat Hrange Hproba.
  rewrite (GPBinaryClassifier_predict_proba_run X s s' ys ps c Hiter Hps Hcat)
    in Hproba.
  injection Hproba as <-. cbn [data].
  assert (Hlen : forall l : list Qc,
            length (concat (map (fun p => [dtype_round (1 - p)%Qc; p]) l))
            = 2 * length l).
  { induction l as [|x l IH]; simpl in *; [done | lia]. }
  split; [|split].
  - induction Hrange as [|p l [H0 H1] _ IH]; [constructor|].
    destruct (Qc_complement_range p H0 H1) as [Hlo Hhi].
    apply Hmono in Hlo, Hhi. rewrite Hzero in Hlo. rewrite Hone in Hhi.
    cbn [map concat app].
    constructor; [done|constructor; [done | exact IH]].
  - apply Hlen.
  - unfold wf_ndarray. cbn [shape data product foldr]. rewrite Hlen. lia.
Qed.
End Predictions.

Section Failures.
Local Open Scope py_scope.
Context {value batch fit_params base_state : Type}.

Variable NeuralNet_get_params_for :
  string -> @net value base_state -> gmap string value.
Variable NeuralNet_train_step_single :
  batch -> fit_params -> M (@net value base_state) (gmap string value).
Variable py_call_kwargs : value -> gmap string value -> result value.
Variable py_call : value -> value -> result value.

(** X7. [initialize_criterion] fails before it calls the criterion when an
    attribute it passes on is missing or a user parameter repeats one of its
    keywords: without [likelihood_] or [module_] it raises the
    [AttributeError] of the missing attribute, with a criterion parameter
    named [likelihood] or [model] a [TypeError]; in each case the estimator
    is unchanged and [criterion_] is not assigned. *)
Theorem GPBase_initialize_criterion_failures (s : @net value base_state) :
  (likelihood_ s = None ->
   GPBase_initialize_criterion NeuralNet_get_params_for py_call_kwargs s
   = (Raise (AttributeError ("'" +:+ __name__ (__class__ s)
               +:+ "' object has no attribute 'likelihood_'")), s))
  /\ (forall ll, likelihood_ s = Some ll -> module_ s = None ->
      GPBase_initialize_criterion NeuralNet_get_params_for py_call_kwargs s
      = (Raise (AttributeError ("'" +:+ __name__ (__class__ s)
                  +:+ "' object has no attribute 'module_'")), s))
  /\ (forall ll m key,
        likelihood_ s = Some ll -> module_ s = Some m ->
        key = "likelihood" \/ key = "model" ->
        is_Some (NeuralNet_get_params_for "criterion" s !! key) ->
        exists msg,
          GPBase_initialize_criterion NeuralNet_get_params_for
            py_call_kwargs s
          = (Raise (TypeError msg), s)).
Proof.
  split; [|split].
  - intros Hll. unfold GPBase_initialize_criterion, bind, get_likelihood_.
    by rewrite Hll.
  - intros ll Hll Hm.
    unfold GPBase_initialize_criterion, bind, get_likelihood_, get_module_.
    by rewrite Hll, Hm.
  - intros ll m key Hll Hm Hkey Hin.
    unfold GPBase_initialize_criterion, bind, lift.
    unfold get_likelihood_ at 1. rewrite Hll.
    unfold get_module_ at 1. rewrite Hm.
    unfold kwargs_merge. cbn [List.find fst snd].
    destruct (bool_decide_reflect
                (is_Some (NeuralNet_get_params_for "criterion" s
                            !! "likelihood"))) as [H1|H1]; [eauto|].
    destruct (bool_decide_reflect
                (is_Some (NeuralNet_get_params_for "criterion" s
                            !! "model"))) as [H2|H2]; [eauto|].
    by destruct Hkey as [->| ->].
Qed.

(** X8. When the dictionary of the base step has no [y_pred] entry,
    [train_step_single] raises after the base step has run and without
    calling the likelihood: [self.likelihood_] is read first, so an
    estimator without that attribute gets its [AttributeError], and
    otherwise [step['y_pred']] raises [KeyError].  The estimator is the one
    the base step left. *)
Theorem GPBase_train_step_single_missing_y_pred (b : batch)
  (fp : fit_params) (s s1 : @net value base_state)
  (step : gmap string value) :
  NeuralNet_train_step_single b fp s = (Ok step, s1) ->
  step !! "y_pred" = None ->
  GPBase_train_step_single NeuralNet_train_step_single py_call b fp s
  = (Raise (match likelihood_ s1 with
            | Some _ => KeyError "y_pred"
            | None =>
                AttributeError ("'" +:+ __name__ (__class__ s1)
                  +:+ "' object has no attribute 'likelihood_'")
            end), s1).
Proof.
  intros Hbase Hy.
  unfold GPBase_train_step_single, bind, lift. rewrite Hbase.
  unfold get_likelihood_. destruct (likelihood_ s1) as [ll|]; [|done].
  unfold getitem. by rewrite Hy.
Qed.
End Failures.

Lemma GPBase_initialize_criterion_failures_witness :
  GPBase_initialize_criterion sample_params sample_call_kwargs
    (sample_net GPRegressor false)
  = (Raise (AttributeError
              "'GPRegressor' object has no attribute 'likelihood_'"),
     sample_net GPRegressor false)
  /\ exists msg,
       GPBase_initialize_criterion
         (fun _ _ => {[ "model" := SNone ]}) sample_call_kwargs
         (sample_net GPRegressor true)
       = (Raise (TypeError msg), sample_net GPRegressor true).
Proof.
  split.
  - exact (proj1 (GPBase_initialize_criterion_failures sample_params
                    sample_call_kwargs (sample_net GPRegressor false))
             eq_refl).
  - refine (proj2 (proj2 (GPBase_initialize_criterion_failures
                            (fun _ _ => {[ "model" := SNone ]})
                            sample_call_kwargs (sample_net GPRegressor true)))
              (SInst "BernoulliLikelihood" []) (SInst "Module" []) "model"
              eq_refl eq_refl (or_intror eq_refl) _).
    exists SNone. reflexivity.
Defined.

Lemma GPBase_train_step_single_missing_y_pred_witness :
  GPBase_train_step_single
    (fun (_ : list (list Qc) * sample_value) (_ : unit) =>
       ret ({[ "loss" := SNone ]} : gmap string sample_value))
    sample_call ([[quarter]], SNone) tt (sample_net GPRegressor true)
  = (Raise (KeyError "y_pred"), sample_net GPRegressor true)
  /\ GPBase_train_step_single
       (fun (_ : list (list Qc) * sample_value) (_ : unit) =>
          ret ({[ "loss" := SNone ]} : gmap string sample_value))
       sample_call ([[quarter]], SNone) tt (sample_net GPRegressor false)
     = (Raise (AttributeError
                 "'GPRegressor' object has no attribute 'likelihood_'"),
        sample_net GPRegressor false).
Proof.
  split.
  - exact (GPBase_train_step_single_missing_y_pred
             (fun _ _ => ret {[ "loss" := SNone ]}) sample_call
             ([[quarter]], SNone) tt (sample_net GPRegressor true)
             (sample_net GPRegressor true) {[ "loss" := SNone ]}
             eq_refl eq_refl).
  - exact (GPBase_train_step_single_missing_y_pred
             (fun _ _ => ret {[ "loss" := SNone ]}) sample_call
             ([[quarter]], SNone) tt (sample_net GPRegressor false)
             (sample_net GPRegressor false) {[ "loss" := SNone ]}
             eq_refl eq_refl).
Defined.

Lemma GPBase_forward_raises_witness :
  GPBase_forward sample_forward_iter sample_X false "cpu"
    (sample_net GPRegressor false)
  = (Raise (NotInitializedError "not initialized"),
     sample_net GPRegressor false).
Proof.
  exact (GPBase_forward_raises sample_forward_iter sample_X false "cpu"
           (sample_net GPRegressor false) (sample_net GPRegressor false)
           [] (NotInitializedError "not initialized") eq_refl).
Defined.

(** X9. When [forward_iter] raises after some batches, [forward] raises the
    same exception and returns none of the outputs yielded before it. *)
Theorem GPBase_forward_discards_partial
  {value input base_state : Type}
  (forward_iter :
     input -> bool -> string -> @net value base_state ->
     generated (output value) * @net value base_state)
  (X : input) (training : bool) (device : string)
  (s s' : @net value base_state) (ys : list (output value)) (e : exn) :
  forward_iter X training device s = ((ys, Some e), s') ->
  GPBase_forward forward_iter X training device s = (Raise e, s')
  /\ forall y_infer,
       GPBase_forward forward_iter X training device s <> (Ok y_infer, s').
Proof.
  intros Hiter. unfold GPBase_forward. rewrite Hiter. cbn [fst snd].
  rewrite py_list_raised. split; [done|]. intros y_infer Heq. discriminate Heq.
Qed.

(** A module with two outputs: a distribution and something else. *)
Definition sample_forward_iter_tuples (X : list (list Qc)) (training : bool)
  (device : string) (s : @net sample_value unit)
  : generated (output sample_value) * @net sample_value unit :=
  ((map (fun xs => Tuple [SDist xs (map (fun _ => quarter) xs); SNone]) X,
    None), s).

(** A generator that fails on its second batch. *)
Definition sample_forward_iter_failing (X : list (list Qc)) (training : bool)
  (device : string) (s : @net sample_value unit)
  : generated (output sample_value) * @net sample_value unit :=
  ((map (fun xs => Single (SDist xs [])) (take 1 X),
    Some (ValueError "bad batch")), s).

Definition sample_classifier (t : Qc) : @net sample_value unit :=
  mk_net GPBinaryClassifier (SClass "BernoulliLikelihood")
         (SClass "VariationalELBO") t
         (Some (SInst "BernoulliLikelihood" [])) (Some (SInst "Module" []))
         None tt.

Lemma GPBase_forward_discards_partial_witness :
  GPBase_forward sample_forward_iter_failing sample_X false "cpu"
    (sample_net GPRegressor true)
  = (Raise (ValueError "bad batch"), sample_net GPRegressor true).
Proof.
  exact (proj1 (GPBase_forward_discards_partial sample_forward_iter_failing
                  sample_X false "cpu" (sample_net GPRegressor true)
                  (sample_net GPRegressor true) _ (ValueError "bad batch")
                  eq_refl)).
Defined.

Lemma predict_no_batches_witness :
  _GPRegressorPredictMixin_predict sample_forward_iter (fun _ t => t)
    (fun t => t) sample_mean sample_stddev [] true false
    (sample_net ExactGPRegressor true)
  = (Raise (ValueError "need at least one array to concatenate"),
     sample_net ExactGPRegressor true).
Proof.
  exact (proj1 (predict_no_batches sample_forward_iter (fun _ t => t)
                  (fun t => t) float32_round sample_mean sample_stddev [] true
                  (sample_net ExactGPRegressor true)
                  (sample_net ExactGPRegressor true) eq_refl)).
Defined.

Lemma predict_first_output_only_witness :
  _GPRegressorPredictMixin_predict sample_forward_iter (fun _ t => t)
    (fun t => t) sample_mean sample_stddev sample_X true false
    (sample_net GPRegressor true)
  = _GPRegressorPredictMixin_predict sample_forward_iter_tuples
      (fun _ t => t) (fun t => t) sample_mean sample_stddev sample_X true
      false (sample_net GPRegressor true).
Proof.
  exact (predict_first_output_only sample_forward_iter_tuples (fun _ t => t)
           (fun t => t) sample_mean sample_stddev sample_forward_iter
           sample_X true false (sample_net GPRegressor true)
           (sample_net GPRegressor true) _ None eq_refl eq_refl).
Defined.

Lemma GPBinaryClassifier_predict_threshold_monotone_witness :
  labels (float32_round half) [quarter; three_quarters; Q2Qc 1] !! 2
  = Some 1%N.
Proof.
  refine (proj2 (GPBinaryClassifier_predict_threshold_monotone
                   sample_forward_iter (fun _ t => t)
                   (fun _ => ret (vector [])) (fun t => t) float32_round
                   sample_mean [[quarter; three_quarters]; [Q2Qc 1]]
                   (sample_classifier half) (sample_classifier half)
                   (sample_classifier three_quarters)
                   (sample_classifier three_quarters)
                   _ [SDist [quarter; three_quarters] [quarter; quarter];
                      SDist [Q2Qc 1] [quarter]]
                   (vector [quarter; three_quarters; Q2Qc 1])
                   (mk_ndarray [3]
                      (labels (float32_round half)
                         [quarter; three_quarters; Q2Qc 1]))
                   (mk_ndarray [3]
                      (labels (float32_round three_quarters)
                         [quarter; three_quarters; Q2Qc 1]))
                   float32_round_le
                   eq_refl eq_refl eq_refl eq_refl eq_refl eq_refl eq_refl
                   _ eq_refl eq_refl) 2 _).
  - intros Hgt. discriminate Hgt.
  - vm_compute. reflexivity.
Defined.

Lemma GPBinaryClassifier_predict_half_is_argmax_witness :
  labels (float32_round half) [quarter; three_quarters; half] !! 1
  = Some 1%N
  <-> (float32_round (1 - three_quarters) < three_quarters)%Qc.
Proof.
  exact (proj1 (GPBinaryClassifier_predict_half_is_argmax
                  sample_forward_iter (fun _ t => t)
                  (fun _ => ret (vector [])) (fun t => t) float32_round
                  sample_mean
                  sample_X (sample_classifier half) (sample_classifier half)
                  _ [SDist [quarter; three_quarters] [quarter; quarter];
                     SDist [half] [quarter]]
                  (vector [quarter; three_quarters; half])
                  (mk_ndarray [3; 2]
                     [float32_round (1 - quarter)%Qc; quarter;
                      float32_round (1 - three_quarters)%Qc; three_quarters;
                      float32_round (1 - half)%Qc; half])
                  (mk_ndarray [3]
                     (labels (float32_round half)
                        [quarter; three_quarters; half]))
                  float32_round_le (proj1 (proj2 float32_round_exact))
                  eq_refl eq_refl eq_refl eq_refl eq_refl eq_refl eq_refl
                  1 (float32_round (1 - three_quarters)%Qc) three_quarters
                  eq_refl)).
Defined.

Lemma GPBinaryClassifier_predict_proba_range_witness :
  Forall (fun q => (0 <= q)%Qc /\ (q <= 1)%Qc)
    [float32_round (1 - quarter)%Qc; quarter;
     float32_round (1 - three_quarters)%Qc; three_quarters;
     float32_round (1 - half)%Qc; half].
Proof.
  refine (proj1 (GPBinaryClassifier_predict_proba_range
                   sample_forward_iter (fun _ t => t) (fun t => t)
                   float32_round sample_mean sample_X
                   (sample_classifier half) (sample_classifier half)
                   _ [SDist [quarter; three_quarters] [quarter; quarter];
                      SDist [half] [quarter]]
                   (vector [quarter; three_quarters; half])
                   (mk_ndarray [3; 2]
                      [float32_round (1 - quarter)%Qc; quarter;
                       float32_round (1 - three_quarters)%Qc; three_quarters;
                       float32_round (1 - half)%Qc; half])
                   float32_round_le (proj1 float32_round_exact)
                   (proj2 (proj2 float32_round_exact))
                   eq_refl eq_refl eq_refl _ eq_refl)).
  repeat constructor; intros Hgt; discriminate Hgt.
Defined.

(** * Initialising the likelihood and the module *)

Definition set_likelihood_ {value base_state} (ll : value)
  (s : @net value base_state) : @net value base_state :=
  mk_net (__class__ s) (likelihood s) (criterion s) (threshold s)
         (Some ll) (module_ s) (criterion_ s) (base s).

(** The truth value of a dictionary: whether it has an entry. *)
Definition truthy {V} (d : gmap string V) : bool := negb (Nat.eqb (size d) 0).

Section Initialization.
Local Open Scope py_scope.
Context {value base_state : Type}.

(** [self.module], an attribute [NeuralNet.__init__] sets. *)
Variable module : base_state -> value.
Variable NeuralNet_get_params_for :
  string -> @net value base_state -> gmap string value.
Variable NeuralNet_initialize_module : M (@net value base_state) unit.
Variable py_call_kwargs : value -> gmap string value -> result value.
(** [isinstance(v, torch.nn.Module)], [isinstance(v,
    gpytorch.models.ExactGP)], [type(v)] *)
Variable is_nn_Module : value -> bool.
Variable is_ExactGP : value -> bool.
Variable type_of : value -> value.

(** The first block of both [initialize_module] methods: instantiate the
    likelihood when it is not an instance yet or has parameters. *)
Definition initialize_likelihood : M (@net value base_state) unit := fun s =>
  let ll_kwargs := NeuralNet_get_params_for "likelihood" s in
  let likelihood := likelihood s in
  let is_initialized := is_nn_Module likelihood in
  if negb is_initialized || truthy ll_kwargs
  then
    let likelihood := if is_initialized then type_of likelihood
                      else likelihood in
    (let* ll := lift (py_call_kwargs likelihood ll_kwargs) in
     fun s => (Ok tt, set_likelihood_ ll s)) s
  else (Ok tt, s).

Definition GPBase_initialize_module : M (@net value base_state) unit :=
  do* initialize_likelihood in
  NeuralNet_initialize_module.

Definition not_exact_gp (s : @net value base_state) : exn :=
  TypeError (__name__ (__class__ s)
               +:+ " requires 'module' to be a gpytorch.models.ExactGP.").

Definition ExactGPRegressor_initialize_module
  : M (@net value base_state) unit := fun s =>
  let module := module (base s) in
  let module_kwargs := NeuralNet_get_params_for "module" s in
  let initialized_ll := is_nn_Module (likelihood s) in
  let initialized_both := initialized_ll && is_nn_Module module in
  (do* initialize_likelihood in
   let* module_kwargs :=
     (if negb (bool_decide (is_Some (module_kwargs !! "likelihood")))
      then let* ll := get_likelihood_ in
           ret (<["likelihood" := ll]> module_kwargs)
      else ret module_kwargs) in
   do* (if negb initialized_both || truthy module_kwargs
        then
          let module := if initialized_both then type_of module else module in
          let* m := lift (py_call_kwargs module module_kwargs) in
          fun s => (Ok tt, set_module_ m s)
        else ret tt) in
   let* m := get_module_ in
   fun s => if negb (is_ExactGP m) then (Raise (not_exact_gp s), s)
            else (Ok tt, s)) s.

Lemma truthy_insert {V} (k : string) (v : V) (d : gmap string V) :
  truthy (<[k := v]> d) = true.
Proof.
  unfold truthy. apply negb_true_iff, Nat.eqb_neq.
  intros Hz. apply map_size_empty_iff in Hz.
  by apply insert_non_empty in Hz.
Qed.

Lemma truthy_lookup {V} (k : string) (d : gmap string V) :
  is_Some (d !! k) -> truthy d = true.
Proof.
  intros [v Hv]. unfold truthy. apply negb_true_iff, Nat.eqb_neq.
  intros Hz. apply map_size_empty_iff in Hz. subst d.
  by rewrite lookup_empty in Hv.
Qed.

(** The keyword arguments [ExactGPRegressor.initialize_module] builds the
    module with: the user's module parameters, to which [likelihood_] is
    added as [likelihood] unless they name one.  There are none when the
    attribute is needed and missing. *)
Definition module_kwargs_of (s s1 : @net value base_state)
  : option (gmap string value) :=
  let params := NeuralNet_get_params_for "module" s in
  if bool_decide (is_Some (params !! "likelihood")) then Some params
  else option_map (fun ll => <["likelihood" := ll]> params) (likelihood_ s1).

(** What [ExactGPRegressor.initialize_module] calls to build the module. *)
Definition module_callee (s : @net value base_state) : value :=
  if is_nn_Module (likelihood s) && is_nn_Module (module (base s))
  then type_of (module (base s)) else module (base s).

Lemma ExactGPRegressor_initialize_module_run (s s1 : @net value base_state)
  (kwargs : gmap string value) :
  initialize_likelihood s = (Ok tt, s1) ->
  (is_Some (NeuralNet_get_params_for "module" s !! "likelihood")
   /\ kwargs = NeuralNet_get_params_for "module" s
   \/ exists ll, likelihood_ s1 = Some ll
        /\ NeuralNet_get_params_for "module" s !! "likelihood" = None
        /\ kwargs = <["likelihood" := ll]> (NeuralNet_get_params_for "module" s)) ->
  ExactGPRegressor_initialize_module s
  = match py_call_kwargs (module_callee s) kwargs with
    | Ok m => if is_ExactGP m then (Ok tt, set_module_ m s1)
              else (Raise (not_exact_gp s1), set_module_ m s1)
    | Raise e => (Raise e, s1)
    end.
Proof.
  intros Hll Hkw. unfold ExactGPRegressor_initialize_module, bind.
  rewrite Hll. unfold module_callee.
  destruct Hkw as [[Hin ->]|(ll & Hl1 & Hnone & ->)].
  - rewrite bool_decide_eq_true_2 by done. cbn [negb ret].
    rewrite (truthy_lookup "likelihood" _ Hin). rewrite orb_true_r.
    unfold lift.
    destruct (py_call_kwargs _ _) as [m|e]; [|done].
    unfold get_module_. cbn [module_ set_module_].
    by destruct (is_ExactGP m).
  - rewrite bool_decide_eq_false_2 by (rewrite Hnone; by apply is_Some_None).
    cbn [negb]. unfold get_likelihood_ at 1. rewrite Hl1. cbn [ret].
    rewrite truthy_insert, orb_true_r. unfold lift.
    destruct (py_call_kwargs _ _) as [m|e]; [|done].
    unfold get_module_. cbn [module_ set_module_].
    by destruct (is_ExactGP m).
Qed.

Lemma initialize_likelihood_outcome (s : @net value base_state) :
  (exists s1, initialize_likelihood s = (Ok tt, s1))
  \/ (exists e, initialize_likelihood s = (Raise e, s)).
Proof.
  unfold initialize_likelihood, bind, lift.
  destruct (negb (is_nn_Module (likelihood s)) || truthy _); [|eauto].
  destruct (py_call_kwargs _ _) as [ll|e]; eauto.
Qed.

(** X10. Whenever [ExactGPRegressor.initialize_module] returns, [module_]
    is a module built during this call (from the class of [self.module] when
    likelihood and module are both instances, else by calling [self.module]),
    never one kept from before; it was built with a [likelihood] keyword and
    the user's module parameters, and it is an [ExactGP]. *)
Theorem ExactGPRegressor_initialize_module_rebuilds
  (s s' : @net value base_state) :
  ExactGPRegressor_initialize_module s = (Ok tt, s') ->
  exists (kwargs : gmap string value) (m : value),
    py_call_kwargs (module_callee s) kwargs = Ok m
    /\ module_ s' = Some m
    /\ is_ExactGP m = true
    /\ is_Some (kwargs !! "likelihood")
    /\ (forall k, k <> "likelihood" ->
          kwargs !! k = NeuralNet_get_params_for "module" s !! k).
Proof.
  intros Hrun.
  destruct (initialize_likelihood_outcome s) as [[s1 Hll]|[e Hll]].
  2:{ unfold ExactGPRegressor_initialize_module, bind in Hrun.
      by rewrite Hll in Hrun. }
  destruct (NeuralNet_get_params_for "module" s !! "likelihood")
    as [v|] eqn:Hlk.
  - rewrite (ExactGPRegressor_initialize_module_run s s1 _ Hll
               (or_introl (conj (ex_intro _ v Hlk) eq_refl))) in Hrun.
    destruct (py_call_kwargs _ _) as [m|e] eqn:Hcall; [|done].
    destruct (is_ExactGP m) eqn:Hgp; [|done].
    injection Hrun as <-.
    exists (NeuralNet_get_params_for "module" s), m.
    split; [done|]. split; [done|]. split; [done|]. split; [eauto | done].
  - destruct (likelihood_ s1) as [ll|] eqn:Hl1.
    + rewrite (ExactGPRegressor_initialize_module_run s s1 _ Hll
                 (or_intror (ex_intro _ ll (conj Hl1 (conj Hlk eq_refl)))))
        in Hrun.
      destruct (py_call_kwargs _ _) as [m|e] eqn:Hcall; [|done].
      destruct (is_ExactGP m) eqn:Hgp; [|done].
      injection Hrun as <-.
      exists (<["likelihood" := ll]> (NeuralNet_get_params_for "module" s)), m.
      split; [done|]. split; [done|]. split; [done|].
      split; [rewrite lookup_insert_eq; eauto|].
      intros k Hk. by rewrite lookup_insert_ne.
    + unfold ExactGPRegressor_initialize_module, bind in Hrun.
      rewrite Hll, Hlk in Hrun.
      rewrite bool_decide_eq_false_2 in Hrun by (by apply is_Some_None).
      cbn [negb] in Hrun. unfold get_likelihood_ in Hrun at 1.
      by rewrite Hl1 in Hrun.
Qed.

(** X11. When the module that was built is not an [ExactGP],
    [ExactGPRegressor.initialize_module] raises a [TypeError] that names the
    class of the estimator, after it has stored the rejected module in
    [module_]; this is so whether the likelihood the module received came
    from [likelihood_] or from the user's module parameters. *)
Theorem ExactGPRegressor_initialize_module_rejects
  (s s1 : @net value base_state) (kwargs : gmap string value) (m : value) :
  initialize_likelihood s = (Ok tt, s1) ->
  module_kwargs_of s s1 = Some kwargs ->
  py_call_kwargs (module_callee s) kwargs = Ok m ->
  is_ExactGP m = false ->
  ExactGPRegressor_initialize_module s
  = (Raise (TypeError (__name__ (__class__ s1)
              +:+ " requires 'module' to be a gpytorch.models.ExactGP.")),
     set_module_ m s1)
  /\ module_ (set_module_ m s1) = Some m.
Proof.
  intros Hll Hkw Hcall Hgp. split; [|done]. unfold module_kwargs_of in Hkw.
  cbv zeta in Hkw.
  destruct (NeuralNet_get_params_for "module" s !! "likelihood")
    as [v|] eqn:Hlk.
  - rewrite bool_decide_eq_true_2 in Hkw by eauto. injection Hkw as <-.
    rewrite (ExactGPRegressor_initialize_module_run s s1 _ Hll
               (or_introl (conj (ex_intro _ v Hlk) eq_refl))).
    by rewrite Hcall, Hgp.
  - rewrite bool_decide_eq_false_2 in Hkw by (by apply is_Some_None).
    destruct (likelihood_ s1) as [ll|] eqn:Hl1; [|done].
    injection Hkw as <-.
    rewrite (ExactGPRegressor_initialize_module_run s s1 _ Hll
               (or_intror (ex_intro _ ll (conj Hl1 (conj Hlk eq_refl))))).
    by rewrite Hcall, Hgp.
Qed.

(** X12. A likelihood passed as an instance and without likelihood
    parameters is never copied to [likelihood_]: [GPBase.initialize_module]
    leaves the attribute unset, a following [initialize_criterion] raises
    the [AttributeError] for it, and [ExactGPRegressor.initialize_module]
    raises it itself unless the user passes the module a likelihood. *)
Theorem initialized_likelihood_is_not_assigned
  (s s2 : @net value base_state) :
  is_nn_Module (likelihood s) = true ->
  truthy (NeuralNet_get_params_for "likelihood" s) = false ->
  likelihood_ s = None ->
  NeuralNet_initialize_module s = (Ok tt, s2) ->
  likelihood_ s2 = None ->
  GPBase_initialize_module s = (Ok tt, s2)
  /\ GPBase_initialize_criterion NeuralNet_get_params_for py_call_kwargs s2
     = (Raise (AttributeError ("'" +:+ __name__ (__class__ s2)
                 +:+ "' object has no attribute 'likelihood_'")), s2)
  /\ (NeuralNet_get_params_for "module" s !! "likelihood" = None ->
      ExactGPRegressor_initialize_module s
      = (Raise (AttributeError ("'" +:+ __name__ (__class__ s)
                  +:+ "' object has no attribute 'likelihood_'")), s)).
Proof.
  intros Hinst Hnokw Hunset Hbase Hunset2.
  assert (Hll : initialize_likelihood s = (Ok tt, s)).
  { unfold initialize_likelihood. by rewrite Hinst, Hnokw. }
  split; [|split].
  - unfold GPBase_initialize_module, bind. by rewrite Hll.
  - unfold GPBase_initialize_criterion, bind, get_likelihood_.
    by rewrite Hunset2.
  - intros Hlk. unfold ExactGPRegressor_initialize_module, bind.
    rewrite Hll, Hlk.
    rewrite bool_decide_eq_false_2 by (by apply is_Some_None).
    cbn [negb]. unfold get_likelihood_ at 1. by rewrite Hunset.
Qed.

(** X13. A likelihood passed as a class is instantiated with the likelihood
    parameters by [GPBase.initialize_module], and a following
    [initialize_criterion] hands that very instance to the criterion. *)
Theorem initialize_module_then_criterion
  (s s2 : @net value base_state) (ll m c : value) :
  is_nn_Module (likelihood s) = false ->
  py_call_kwargs (likelihood s) (NeuralNet_get_params_for "likelihood" s)
  = Ok ll ->
  NeuralNet_initialize_module (set_likelihood_ ll s) = (Ok tt, s2) ->
  likelihood_ s2 = Some ll ->
  module_ s2 = Some m ->
  NeuralNet_get_params_for "criterion" s2 !! "likelihood" = None ->
  NeuralNet_get_params_for "criterion" s2 !! "model" = None ->
  py_call_kwargs (criterion s2)
    (<["likelihood" := ll]>
       (<["model" := m]> (NeuralNet_get_params_for "criterion" s2))) = Ok c ->
  (let* _ := GPBase_initialize_module in
   GPBase_initialize_criterion NeuralNet_get_params_for py_call_kwargs) s
  = (Ok tt, set_criterion_ c s2).
Proof.
  intros Hcls Hctor Hbase Hl2 Hm2 Hk1 Hk2 Hcrit.
  unfold bind at 1.
  assert (Hinit : GPBase_initialize_module s = (Ok tt, s2)).
  { unfold GPBase_initialize_module, bind, initialize_likelihood, lift.
    rewrite Hcls. cbn [negb orb]. by rewrite Hctor. }
  rewrite Hinit.
  unfold GPBase_initialize_criterion, bind, lift.
  unfold get_likelihood_ at 1. rewrite Hl2.
  unfold get_module_ at 1. rewrite Hm2.
  by rewrite (kwargs_merge_two _ _ _ _ _ Hk1 Hk2), Hcrit.
Qed.
End Initialization.

(** *** Initialisation on the example *)

Definition sample_is_instance (v : sample_value) : bool :=
  match v with
  | SInst _ _ => true
  | _ => false
  end.

Definition sample_type_of (v : sample_value) : sample_value :=
  match v with
  | SInst cls _ => SClass cls
  | _ => SClass "type"
  end.

Definition sample_is_ExactGP (v : sample_value) : bool :=
  match v with
  | SInst cls _ => String.eqb cls "ExactGPModel"
  | _ => false
  end.

Definition sample_no_params (prefix : string) (s : @net sample_value unit)
  : gmap string sample_value := ∅.

(** An estimator that was just constructed around [likelihood]. *)
Definition sample_fresh (c : py_class) (likelihood : sample_value)
  : @net sample_value unit :=
  mk_net c likelihood (SClass "ExactMarginalLogLikelihood") half
         None None None tt.

Definition sample_base_initialize_module
  : M (@net sample_value unit) unit :=
  fun s => (Ok tt, set_module_ (SInst "Module" []) s).

Lemma ExactGPRegressor_initialize_module_rebuilds_witness :
  exists (kwargs : gmap string sample_value) (m : sample_value),
    sample_call_kwargs (SClass "ExactGPModel") kwargs = Ok m
    /\ is_Some (kwargs !! "likelihood")
    /\ sample_is_ExactGP m = true.
Proof.
  destruct (ExactGPRegressor_initialize_module_rebuilds
              (fun _ : unit => SClass "ExactGPModel") sample_no_params
              sample_call_kwargs sample_is_instance sample_is_ExactGP
              sample_type_of
              (sample_fresh ExactGPRegressor (SClass "GaussianLikelihood"))
              (set_module_
                 (SInst "ExactGPModel"
                    [("likelihood", SInst "GaussianLikelihood" [])])
                 (set_likelihood_ (SInst "GaussianLikelihood" [])
                    (sample_fresh ExactGPRegressor
                       (SClass "GaussianLikelihood")))))
    as (kwargs & m & Hcall & _ & Hgp & Hin & _).
  - vm_compute. reflexivity.
  - exists kwargs, m. split; [exact Hcall|]. split; [exact Hin | exact Hgp].
Defined.

(** The user names the likelihood of the module in the module parameters. *)
Definition sample_module_params (prefix : string)
  (s : @net sample_value unit) : gmap string sample_value :=
  if String.eqb prefix "module"
  then {[ "likelihood" := SInst "GaussianLikelihood" [] ]} else ∅.

Lemma ExactGPRegressor_initialize_module_rejects_witness :
  ExactGPRegressor_initialize_module
    (fun _ : unit => SClass "Linear") sample_no_params
    sample_call_kwargs sample_is_instance sample_is_ExactGP sample_type_of
    (sample_fresh ExactGPRegressor (SClass "GaussianLikelihood"))
  = (Raise (TypeError
       "ExactGPRegressor requires 'module' to be a gpytorch.models.ExactGP."),
     set_module_
       (SInst "Linear" [("likelihood", SInst "GaussianLikelihood" [])])
       (set_likelihood_ (SInst "GaussianLikelihood" [])
          (sample_fresh ExactGPRegressor (SClass "GaussianLikelihood"))))
  /\ ExactGPRegressor_initialize_module
       (fun _ : unit => SClass "Linear") sample_module_params
       sample_call_kwargs sample_is_instance sample_is_ExactGP sample_type_of
       (sample_fresh ExactGPRegressor (SInst "GaussianLikelihood" []))
     = (Raise (TypeError
          "ExactGPRegressor requires 'module' to be a gpytorch.models.ExactGP."),
        set_module_
          (SInst "Linear" [("likelihood", SInst "GaussianLikelihood" [])])
          (sample_fresh ExactGPRegressor (SInst "GaussianLikelihood" []))).
Proof.
  split.
  - refine (proj1 (ExactGPRegressor_initialize_module_rejects
                     (fun _ : unit => SClass "Linear") sample_no_params
                     sample_call_kwargs sample_is_instance sample_is_ExactGP
                     sample_type_of
                     (sample_fresh ExactGPRegressor
                        (SClass "GaussianLikelihood"))
                     (set_likelihood_ (SInst "GaussianLikelihood" [])
                        (sample_fresh ExactGPRegressor
                           (SClass "GaussianLikelihood")))
                     {[ "likelihood" := SInst "GaussianLikelihood" [] ]}
                     (SInst "Linear"
                        [("likelihood", SInst "GaussianLikelihood" [])])
                     _ _ _ eq_refl)).
    + vm_compute. reflexivity.
    + vm_compute. reflexivity.
    + vm_compute. reflexivity.
  - refine (proj1 (ExactGPRegressor_initialize_module_rejects
                     (fun _ : unit => SClass "Linear") sample_module_params
                     sample_call_kwargs sample_is_instance sample_is_ExactGP
                     sample_type_of
                     (sample_fresh ExactGPRegressor
                        (SInst "GaussianLikelihood" []))
                     (sample_fresh ExactGPRegressor
                        (SInst "GaussianLikelihood" []))
                     {[ "likelihood" := SInst "GaussianLikelihood" [] ]}
                     (SInst "Linear"
                        [("likelihood", SInst "GaussianLikelihood" [])])
                     _ _ _ eq_refl)).
    + vm_compute. reflexivity.
    + vm_compute. reflexivity.
    + vm_compute. reflexivity.
Defined.

Lemma initialized_likelihood_is_not_assigned_witness :
  GPBase_initialize_criterion sample_no_params sample_call_kwargs
    (set_module_ (SInst "Module" [])
       (sample_fresh GPRegressor (SInst "GaussianLikelihood" [])))
  = (Raise (AttributeError
              "'GPRegressor' object has no attribute 'likelihood_'"),
     set_module_ (SInst "Module" [])
       (sample_fresh GPRegressor (SInst "GaussianLikelihood" []))).
Proof.
  refine (proj1 (proj2 (initialized_likelihood_is_not_assigned
                          (fun _ : unit => SClass "Module") sample_no_params
                          sample_base_initialize_module sample_call_kwargs
                          sample_is_instance sample_is_ExactGP sample_type_of
                          (sample_fresh GPRegressor
                             (SInst "GaussianLikelihood" []))
                          (set_module_ (SInst "Module" [])
                             (sample_fresh GPRegressor
                                (SInst "GaussianLikelihood" [])))
                          eq_refl _ eq_refl eq_refl eq_refl))).
  vm_compute. reflexivity.
Defined.

Lemma initialize_module_then_criterion_witness :
  exists c : sample_value,
    bind (GPBase_initialize_module sample_no_params
            sample_base_initialize_module sample_call_kwargs
            sample_is_instance sample_type_of)
         (fun _ => GPBase_initialize_criterion sample_no_params
                     sample_call_kwargs)
         (sample_fresh GPRegressor (SClass "GaussianLikelihood"))
    = (Ok tt,
       set_criterion_ c
         (set_module_ (SInst "Module" [])
            (set_likelihood_ (SInst "GaussianLikelihood" [])
               (sample_fresh GPRegressor (SClass "GaussianLikelihood"))))).
Proof.
  eexists.
  refine (initialize_module_then_criterion sample_no_params
            sample_base_initialize_module sample_call_kwargs
            sample_is_instance sample_type_of
            (sample_fresh GPRegressor (SClass "GaussianLikelihood"))
            (set_module_ (SInst "Module" [])
               (set_likelihood_ (SInst "GaussianLikelihood" [])
                  (sample_fresh GPRegressor (SClass "GaussianLikelihood"))))
            (SInst "GaussianLikelihood" []) (SInst "Module" []) _
            eq_refl _ eq_refl eq_refl eq_refl eq_refl _ eq_refl).
  - vm_compute. reflexivity.
  - reflexivity.
Defined.

(** * The docstrings of GPRegressor and GPBinaryClassifier *)

Definition gp_regr_doc_start : pystr := list_ascii_of_string
"Gaussian Process regressor

    Use this for variational and approximate Gaussian process regression. This
    implies that the module should by a :class:`~gpytorch.models.ApproximateGP`
    module.

".

Definition gp_regr_module_text : pystr := list_ascii_of_string
"

    Module : gpytorch.models.ApproximateGP (class or instance)
      The GPyTorch module; in contrast to exact GP, the return distribution does
      not need to be Gaussian.

".

Definition gp_regr_criterion_text : pystr := list_ascii_of_string
"

    likelihood : gpytorch.likelihoods.GaussianLikelihood (class or instance)
      The likelihood used for the exact GP regressor. Usually doesn't need to be
      changed.

    criterion : gpytorch.mlls.VariationalELBO
      The objective function to learn the approximate posterior of of the GP
      regressor.

".

Definition gp_binary_clf_doc_start : pystr := list_ascii_of_string
"Gaussian Process binary classifier

    Use this for variational and approximate Gaussian process binary
    classification. This implies that the module should by a
    :class:`~gpytorch.models.ApproximateGP` module.

".

Definition gp_binary_clf_module_text : pystr := list_ascii_of_string
"

    Module : gpytorch.models.ApproximateGP (class or instance)
      The GPyTorch module; in contrast to exact GP, the return distribution does
      not need to be Gaussian.

".

Definition gp_binary_clf_criterion_text : pystr := list_ascii_of_string
"

    likelihood : gpytorch.likelihoods.BernoulliLikelihood (class or instance)
      The likelihood used for the exact GP binary classification. Usually
      doesn't need to be changed.

    criterion : gpytorch.mlls.VariationalELBO
      The objective function to learn the approximate posterior of of the GP
      binary classification.

".

Definition get_gp_regr_doc (doc : pystr) : result pystr :=
  let params_start_idx := str_find doc parameters_header in
  let doc := slice_from doc params_start_idx in
  let doc := gp_regr_doc_start ++ list_ascii_of_string " " ++ doc in
  rbind (replace_match module_pattern gp_regr_module_text doc)
  (fun doc =>
  rbind (replace_match criterion_pattern gp_regr_criterion_text doc)
  (fun doc =>
  rbind (replace_match train_split_pattern gp_regr_train_split_text doc)
  (fun doc =>
  Ok (doc ++ gp_likelihood_attribute_text)))).

Definition get_gp_binary_clf_doc (doc : pystr) : result pystr :=
  let params_start_idx := str_find doc parameters_header in
  let doc := slice_from doc params_start_idx in
  let doc := gp_binary_clf_doc_start ++ list_ascii_of_string " " ++ doc in
  rbind (replace_match module_pattern gp_binary_clf_module_text doc)
  (fun doc =>
  rbind (replace_match criterion_pattern gp_binary_clf_criterion_text doc)
  (fun doc =>
  Ok (doc ++ gp_likelihood_attribute_text))).


















(** *** Docstrings without the header, and what stands before it *)

(** [s[-1:]] is the last character of [s], or empty. *)
Lemma slice_from_last (s : pystr) :
  slice_from s (-1) = [] \/ exists c, slice_from s (-1) = [c].
Proof.
  unfold slice_from. change (-1 <? 0)%Z with true. cbv iota.
  destruct s as [|c s _] using rev_ind; [by left|].
  right. exists c. rewrite length_app. cbn [length].
  replace (Z.to_nat (Z.max 0 (Z.of_nat (length s + 1) + -1))) with (length s)
    by lia.
  by rewrite drop_app_length.
Qed.

Lemma startswith_find_from (sub s : pystr) (i : nat) :
  startswith sub s = true -> find_from sub s i = Some i.
Proof. intros Hs. destruct s; simpl; by rewrite Hs. Qed.

Lemma startswith_prefix (sub rest : pystr) :
  startswith sub (sub ++ rest) = true.
Proof.
  induction sub as [|c sub IH]; [done|].
  simpl. by rewrite Ascii.eqb_refl, IH.
Qed.

Lemma header_not_in_char (c : ascii) :
  find_from parameters_header [c] 0 = None.
Proof. destruct c as [[] [] [] [] [] [] [] []]; vm_compute; reflexivity. Qed.

(** Cutting a docstring at the header a second time changes nothing. *)
Lemma slice_from_header_idem (doc : pystr) :
  slice_from (slice_from doc (str_find doc parameters_header))
    (str_find (slice_from doc (str_find doc parameters_header))
       parameters_header)
  = slice_from doc (str_find doc parameters_header).
Proof.
  unfold str_find.
  destruct (find_from parameters_header doc 0) as [j|] eqn:Hf.
  - rewrite !slice_from_nat.
    destruct (find_from_found _ _ _ _ Hf) as (k & -> & Hk & Hd).
    change (0 + k) with k.
    assert (Hs : find_from parameters_header (drop k doc) 0 = Some 0).
    { apply startswith_find_from. rewrite Hd. apply startswith_prefix. }
    rewrite Hs. by rewrite (slice_from_nat _ 0), drop_0.
  - destruct (slice_from_last doc) as [->|[c ->]].
    + vm_compute. reflexivity.
    + rewrite header_not_in_char. vm_compute. reflexivity.
Qed.

Lemma exact_gp_regr_start_has_no_module (c : ascii) :
  search_from module_pattern
    (exact_gp_regr_doc_start ++ list_ascii_of_string " " ++ [c]) 0 = None.
Proof. destruct c as [[] [] [] [] [] [] [] []]; vm_compute; reflexivity. Qed.

Lemma gp_regr_start_has_no_module (c : ascii) :
  search_from module_pattern
    (gp_regr_doc_start ++ list_ascii_of_string " " ++ [c]) 0 = None.
Proof. destruct c as [[] [] [] [] [] [] [] []]; vm_compute; reflexivity. Qed.

Lemma gp_binary_clf_start_has_no_module (c : ascii) :
  search_from module_pattern
    (gp_binary_clf_doc_start ++ list_ascii_of_string " " ++ [c]) 0 = None.
Proof. destruct c as [[] [] [] [] [] [] [] []]; vm_compute; reflexivity. Qed.

(** X16. On a docstring that does not contain the header, [find] returns
    -1 and the slice keeps the last character only; the module pattern is
    then searched in the introductory text, where it does not occur, and
    each of the three functions raises the [AttributeError] of
    [None.span()]. *)
Theorem doc_templaters_need_header (doc : pystr) :
  str_find doc parameters_header = (-1)%Z ->
  get_exact_gp_regr_doc doc
  = Raise (AttributeError "'NoneType' object has no attribute 'span'")
  /\ get_gp_regr_doc doc
     = Raise (AttributeError "'NoneType' object has no attribute 'span'")
  /\ get_gp_binary_clf_doc doc
     = Raise (AttributeError "'NoneType' object has no attribute 'span'").
Proof.
  intros Hfind.
  unfold get_exact_gp_regr_doc, get_gp_regr_doc, get_gp_binary_clf_doc.
  cbv zeta. rewrite Hfind. unfold replace_match, re_search_span.
  destruct (slice_from_last doc) as [->|[c ->]].
  - split; [|split]; vm_compute; reflexivity.
  - rewrite exact_gp_regr_start_has_no_module, gp_regr_start_has_no_module,
      gp_binary_clf_start_has_no_module.
    by cbn [rbind].
Qed.

(** X17. The three functions read a docstring from the header on: cutting
    off what stands before the header (or, without a header, all but the
    last character) beforehand does not change their outcome. *)
Theorem doc_templaters_ignore_preface (doc : pystr) :
  get_exact_gp_regr_doc (slice_from doc (str_find doc parameters_header))
  = get_exact_gp_regr_doc doc
  /\ get_gp_regr_doc (slice_from doc (str_find doc parameters_header))
     = get_gp_regr_doc doc
  /\ get_gp_binary_clf_doc (slice_from doc (str_find doc parameters_header))
     = get_gp_binary_clf_doc doc.
Proof.
  unfold get_exact_gp_regr_doc, get_gp_regr_doc, get_gp_binary_clf_doc.
  cbv zeta. by rewrite slice_from_header_idem.
Qed.

Lemma doc_templaters_need_header_witness :
  get_gp_regr_doc (list_ascii_of_string "NeuralNet base class.")
  = Raise (AttributeError "'NoneType' object has no attribute 'span'").
Proof.
  exact (proj1 (proj2 (doc_templaters_need_header
                         (list_ascii_of_string "NeuralNet base class.")
                         eq_refl))).
Defined.

(** * Confidence regions and samples *)

Lemma Qc_region_ordered (m sd sigmas : Qc) :
  (0 <= sd)%Qc -> (0 <= sigmas)%Qc ->
  (m - sd * sigmas <= m + sd * sigmas)%Qc.
Proof.
  intros Hsd Hk.
  assert (Hp : (0 <= sd * sigmas)%Qc).
  { rewrite <- (Qcmult_0_l sigmas). by apply Qcmult_le_compat_r. }
  unfold Qcminus. apply Qcplus_le_compat; [apply Qcle_refl|].
  apply Qcle_trans with 0%Qc; [|done].
  change 0%Qc with (- 0)%Qc. by apply Qcopp_le_compat.
Qed.

Lemma Forall2_concat_zip {A B} (R : A -> B -> Prop) (ls : list (list A))
  (ks : list (list B)) :
  Forall2 (Forall2 R) ls ks -> Forall2 R (concat ls) (concat ks).
Proof.
  induction 1 as [|l k ls ks Hlk _ IH]; [constructor|].
  simpl. by apply Forall2_app.
Qed.

Section Regions.
Local Open Scope py_scope.
Context {value input base_state rng : Type}.

(** Tensors are arrays of rationals here, [ndarray Qc], since the region is
    computed from their elements; the arithmetic on them is exact. *)
Variable NeuralNet_check_is_fitted : @net value base_state -> result unit.
Variable NeuralNet_forward_iter :
  input -> bool -> string -> @net value base_state ->
  generated (output value) * @net value base_state.
Variable NeuralNet__get_predict_nonlinearity :
  @net value base_state -> ndarray Qc -> ndarray Qc.
Variable mean stddev : value -> ndarray Qc.
(** [torch.cat(tensors)] and [torch.cat(tensors, axis=axis)] *)
Variable torch_cat : list (ndarray Qc) -> result (ndarray Qc).
Variable torch_cat_axis : list (ndarray Qc) -> Z -> result (ndarray Qc).
(** An elementwise operation on two tensors of different shapes, which torch
    broadcasts or rejects. *)
Variable torch_broadcast :
  (Qc -> Qc -> Qc) -> ndarray Qc -> ndarray Qc -> result (ndarray Qc).
(** [p.sample(torch.Size([n_samples]))], which draws from the generator of
    random numbers. *)
Variable dist_sample : value -> Z -> rng -> result (ndarray Qc) * rng.

(** [std.mul_(sigmas)]: the tensor that [posterior.stddev] returned, scaled
    in place.  The loop reads the standard deviation of a yielded posterior
    once and goes on with this scaled tensor only; whether the posterior
    keeps the scaled tensor for a later read of [stddev] is up to gpytorch,
    and nothing here relates two such reads. *)
Definition torch_mul_ (t : ndarray Qc) (k : Qc) : ndarray Qc :=
  np_map (fun x => (x * k)%Qc) t.

Definition torch_elementwise (f : Qc -> Qc -> Qc) (a b : ndarray Qc)
  : result (ndarray Qc) :=
  if bool_decide (shape a = shape b)
  then Ok (mk_ndarray (shape a) (zip_with f (data a) (data b)))
  else torch_broadcast f a b.

Definition torch_sub : ndarray Qc -> ndarray Qc -> result (ndarray Qc) :=
  torch_elementwise Qcminus.
Definition torch_add : ndarray Qc -> ndarray Qc -> result (ndarray Qc) :=
  torch_elementwise Qcplus.

(** The body of the loop of [confidence_region], on the pair
    [(lower, upper)]. *)
Definition confidence_region_body (nonlin : ndarray Qc -> ndarray Qc)
  (sigmas : Qc) (yi : output value)
  (acc : list (ndarray Qc) * list (ndarray Qc))
  : result (list (ndarray Qc) * list (ndarray Qc)) :=
  rbind (posterior_of yi) (fun posterior =>
    let mean := mean posterior in
    let std := stddev posterior in
    let std := torch_mul_ std sigmas in
    rbind (torch_sub mean std) (fun lo =>
      let lower := acc.1 ++ [nonlin lo] in
      rbind (torch_add mean std) (fun hi =>
        Ok (lower, acc.2 ++ [nonlin hi])))).

Definition GPBase_confidence_region (X : input) (sigmas : Qc)
  : M (@net value base_state) (ndarray Qc * ndarray Qc) := fun s =>
  let nonlin := NeuralNet__get_predict_nonlinearity s in
  let gs := NeuralNet_forward_iter X false "cpu" s in
  (rbind (for_gen gs.1 (confidence_region_body nonlin sigmas) ([], []))
     (fun acc =>
        rbind (torch_cat acc.1) (fun lower =>
          rbind (torch_cat acc.2) (fun upper => Ok (lower, upper)))),
   gs.2).

(** [[p.sample(torch.Size([n_samples])) for p in self.forward_iter(X)]]: the
    yielded object itself is sampled, a tuple has no such method.  The
    generator of random numbers is threaded through the sampling calls. *)
Definition sample_body (n_samples : Z) (p : output value)
  (acc : list (ndarray Qc) * rng) : result (list (ndarray Qc) * rng) :=
  match p with
  | Single p =>
      let r := dist_sample p n_samples acc.2 in
      rbind r.1 (fun t => Ok (acc.1 ++ [t], r.2))
  | Tuple _ =>
      Raise (AttributeError "'tuple' object has no attribute 'sample'")
  end.

Definition GPBase_sample (X : input) (n_samples axis : Z) (g : rng)
  : M (@net value base_state) (ndarray Qc) := fun s =>
  match NeuralNet_check_is_fitted s with
  | Raise e => (Raise e, s)
  | Ok _ =>
      let gs := NeuralNet_forward_iter X false "cpu" s in
      (rbind (for_gen gs.1 (sample_body n_samples) ([], g))
         (fun acc => torch_cat_axis acc.1 axis),
       gs.2)
  end.

(** The two ends of the region of one posterior. *)
Definition region_end (op : Qc -> Qc -> Qc) (sigmas : Qc) (p : value)
  : ndarray Qc :=
  mk_ndarray (shape (mean p))
    (zip_with op (data (mean p))
       (map (fun x => (x * sigmas)%Qc) (data (stddev p)))).

Lemma confidence_region_loop (nonlin : ndarray Qc -> ndarray Qc)
  (sigmas : Qc) (ys : list (output value)) (ps : list value)
  (lower upper : list (ndarray Qc)) :
  rmapM posterior_of ys = Ok ps ->
  Forall (fun p => shape (mean p) = shape (stddev p)) ps ->
  for_loop (confidence_region_body nonlin sigmas) ys (lower, upper)
  = Ok (lower ++ map (fun p => nonlin (region_end Qcminus sigmas p)) ps,
        upper ++ map (fun p => nonlin (region_end Qcplus sigmas p)) ps).
Proof.
  revert ps lower upper.
  induction ys as [|yi ys IH]; intros ps lower upper Hps Hshape; simpl in *.
  - injection Hps as <-. simpl. by rewrite !app_nil_r.
  - unfold confidence_region_body at 1.
    destruct (posterior_of yi) as [p|e]; simpl in *; [|done].
    destruct (rmapM posterior_of ys) as [ps'|e] eqn:Hps'; simpl in *; [|done].
    injection Hps as <-. apply Forall_cons in Hshape as [Hp Hshape].
    unfold torch_sub, torch_add, torch_elementwise, torch_mul_, np_map.
    cbn [shape data]. rewrite !bool_decide_eq_true_2 by done.
    cbn [rbind fst snd]. rewrite (IH ps') by done.
    unfold region_end. cbn [map]. by rewrite <- !app_assoc.
Qed.

Lemma confidence_region_run (X : input) (sigmas : Qc)
  (s s' : @net value base_state) (ys : list (output value))
  (ps : list value) :
  NeuralNet_forward_iter X false "cpu" s = ((ys, None), s') ->
  rmapM posterior_of ys = Ok ps ->
  Forall (fun p => shape (mean p) = shape (stddev p)) ps ->
  GPBase_confidence_region X sigmas s
  = (rbind (torch_cat
              (map (fun p => NeuralNet__get_predict_nonlinearity s
                               (region_end Qcminus sigmas p)) ps))
       (fun lower =>
          rbind (torch_cat
                   (map (fun p => NeuralNet__get_predict_nonlinearity s
                                    (region_end Qcplus sigmas p)) ps))
            (fun upper => Ok (lower, upper))),
     s').
Proof.
  intros Hiter Hps Hshape. unfold GPBase_confidence_region, for_gen.
  rewrite Hiter. cbn [fst snd].
  by rewrite (confidence_region_loop _ _ ys ps [] [] Hps Hshape).
Qed.

(** X18. With a number of standard deviations that is not negative and a
    predict nonlinearity that preserves the elementwise order, the lower
    end of the region [confidence_region] returns is elementwise at most
    the upper end. *)
Theorem GPBase_confidence_region_ordered (X : input) (sigmas : Qc)
  (s s' : @net value base_state) (ys : list (output value))
  (ps : list value) (lower upper : ndarray Qc) :
  (forall ts t, torch_cat ts = Ok t -> data t = concat (map data ts)) ->
  (forall a b, Forall2 Qcle (data a) (data b) ->
     Forall2 Qcle (data (NeuralNet__get_predict_nonlinearity s a))
                  (data (NeuralNet__get_predict_nonlinearity s b))) ->
  NeuralNet_forward_iter X false "cpu" s = ((ys, None), s') ->
  rmapM posterior_of ys = Ok ps ->
  Forall (fun p => shape (mean p) = shape (stddev p)
                   /\ Forall (Qcle 0) (data (stddev p))) ps ->
  (0 <= sigmas)%Qc ->
  GPBase_confidence_region X sigmas s = (Ok (lower, upper), s') ->
  Forall2 Qcle (data lower) (data upper).
Proof.
  intros Hcat Hmono Hiter Hps Hpost Hsig Hres.
  rewrite (confidence_region_run X sigmas s s' ys ps Hiter Hps) in Hres
    by (eapply Forall_impl; [exact Hpost|]; by intros p [Hp _]).
  destruct (torch_cat _) as [lo|] eqn:Hlo in Hres; [|done].
  cbn [rbind] in Hres.
  destruct (torch_cat _) as [hi|] eqn:Hhi in Hres; [|done].
  cbn [rbind] in Hres. injection Hres as <- <-.
  rewrite (Hcat _ _ Hlo), (Hcat _ _ Hhi), !map_map.
  apply Forall2_concat_zip, Forall2_fmap.
  clear Hlo Hhi Hps. induction Hpost as [|p ps [_ Hsd] _ IH]; constructor;
    [|done].
  apply Hmono. unfold region_end. cbn [data].
  generalize (data (mean p)). induction Hsd as [|sd sds Hsd _ IHsd];
    intros [|m ms]; try constructor; [|apply IHsd].
  by apply Qc_region_ordered.
Qed.

(** X20. [sample] checks that the estimator is initialized before anything
    else, and it samples the objects [forward_iter] yields as they are: on
    a module that returns a tuple it raises [AttributeError] where
    [predict] and [confidence_region] take the first element. *)
Theorem GPBase_sample_checks (X : input) (n_samples axis : Z) (g : rng)
  (s : @net value base_state) :
  (forall e, NeuralNet_check_is_fitted s = Raise e ->
     GPBase_sample X n_samples axis g s = (Raise e, s))
  /\ (forall s' outs rest e,
        NeuralNet_check_is_fitted s = Ok tt ->
        NeuralNet_forward_iter X false "cpu" s
        = ((Tuple outs :: rest, e), s') ->
        (GPBase_sample X n_samples axis g s).1
        = Raise (AttributeError "'tuple' object has no attribute 'sample'")).
Proof.
  split.
  - intros e Hfit. unfold GPBase_sample. by rewrite Hfit.
  - intros s' outs rest e Hfit Hiter. unfold GPBase_sample.
    by rewrite Hfit, Hiter.
Qed.
End Regions.

(** *** Regions and samples on the example *)

Lemma GPBase_confidence_region_ordered_witness :
  exists lower upper : ndarray Qc,
    GPBase_confidence_region sample_forward_iter (fun _ t => t) sample_mean
      sample_stddev np_concatenate0 (fun _ a _ => Ok a) sample_X (Q2Qc 2)
      (sample_net GPRegressor true)
    = (Ok (lower, upper), sample_net GPRegressor true)
    /\ Forall2 Qcle (data lower) (data upper).
Proof.
  eexists _, _. split; [reflexivity|].
  refine (GPBase_confidence_region_ordered sample_forward_iter
            (fun _ t => t) sample_mean sample_stddev np_concatenate0
            (fun _ a _ => Ok a) sample_X (Q2Qc 2)
            (sample_net GPRegressor true) (sample_net GPRegressor true)
            _ [SDist [quarter; three_quarters] [quarter; quarter];
               SDist [half] [quarter]] _ _
            (fun ts t Hcat => proj1 (np_concatenate0_ok ts t Hcat))
            (fun a b Hab => Hab) eq_refl eq_refl _ _ eq_refl).
  - repeat constructor; intros Hgt; discriminate Hgt.
  - intros Hgt. discriminate Hgt.
Defined.

Lemma GPBase_sample_checks_witness :
  GPBase_sample sample_check_is_fitted sample_forward_iter_tuples
    (fun ts _ => np_concatenate0 ts) (fun p _ g => (Ok (sample_mean p), g))
    sample_X 3 (-1) tt (sample_net GPRegressor false)
  = (Raise (NotInitializedError "not initialized"),
     sample_net GPRegressor false)
  /\ (GPBase_sample sample_check_is_fitted sample_forward_iter_tuples
        (fun ts _ => np_concatenate0 ts)
        (fun p _ g => (Ok (sample_mean p), g))
        sample_X 3 (-1) tt (sample_net GPRegressor true)).1
     = Raise (AttributeError "'tuple' object has no attribute 'sample'").
Proof.
  split.
  - exact (proj1 (GPBase_sample_checks sample_check_is_fitted
                    sample_forward_iter_tuples
                    (fun ts _ => np_concatenate0 ts)
                    (fun p _ g => (Ok (sample_mean p), g))
                    sample_X 3 (-1) tt (sample_net GPRegressor false))
             _ eq_refl).
  - exact (proj2 (GPBase_sample_checks sample_check_is_fitted
                    sample_forward_iter_tuples
                    (fun ts _ => np_concatenate0 ts)
                    (fun p _ g => (Ok (sample_mean p), g))
                    sample_X 3 (-1) tt (sample_net GPRegressor true))
             _ _ _ _ eq_refl eq_refl).
Defined.

(** * The classes and the data check of GPBinaryClassifier *)

(** The property [classes_] *)
Definition classes_ : list N := [0%N; 1%N].

Section Classifier.
Local Open Scope py_scope.
Context {value tensor input target base_state : Type}.

Variable NeuralNet_forward_iter :
  input -> bool -> string -> @net value base_state ->
  generated (output value) * @net value base_state.
Variable NeuralNet__get_predict_nonlinearity :
  @net value base_state -> tensor -> tensor.
Variable NeuralNet_predict_proba :
  input -> M (@net value base_state) (ndarray Qc).
Variable NeuralNet_check_data : input -> target -> result unit.
Variable to_numpy : tensor -> ndarray Qc.
Variable dtype_round : Qc -> Qc.
Variable mean : value -> tensor.
(** [is_dataset(X)] and [get_dim(y)] of [skorch.dataset] *)
Variable is_dataset : input -> bool.
Variable get_dim : target -> result nat.

Definition GPBinaryClassifier_check_data (X : input) (y : target)
  : result unit :=
  rbind (NeuralNet_check_data X y) (fun _ =>
    rbind (if negb (is_dataset X)
           then rmap (fun d => negb (Nat.eqb d 1)) (get_dim y)
           else Ok false)
      (fun bad =>
         if bad
         then Raise (ValueError "The target data should be 1-dimensional.")
         else Ok tt)).

(** X21. Every label [predict] of the binary classifier returns is one of
    [classes_], whatever the probabilities and the threshold are. *)
Theorem GPBinaryClassifier_predict_in_classes (X : input)
  (s s' : @net value base_state) (y_pred : ndarray N) :
  GPBinaryClassifier_predict NeuralNet_forward_iter
    NeuralNet__get_predict_nonlinearity NeuralNet_predict_proba to_numpy
    dtype_round mean X s = (Ok y_pred, s') ->
  Forall (fun label => label ∈ classes_) (data y_pred).
Proof.
  unfold GPBinaryClassifier_predict, bind.
  destruct (predict_proba _ _ _ _ _ _ X s) as [[y_proba|e] s1]; [|done].
  destruct (np_column1 y_proba) as [col|e]; [|done].
  cbn [rbind]. intros [= <- _].
  unfold astype_uint8, np_map. cbn [data].
  apply Forall_fmap, Forall_fmap, Forall_forall. intros p _.
  unfold classes_. cbn. destruct (bool_decide _); repeat constructor.
Qed.

(** X22. [check_data] of the binary classifier runs the check of the base
    class first and passes its exception on; for a dataset it then accepts
    without looking at the target, and otherwise it passes on an exception
    of [get_dim] and raises [ValueError] exactly when the target has a
    dimension other than 1. *)
Theorem GPBinaryClassifier_check_data_cases (X : input) (y : target) :
  (forall e, NeuralNet_check_data X y = Raise e ->
     GPBinaryClassifier_check_data X y = Raise e)
  /\ (NeuralNet_check_data X y = Ok tt -> is_dataset X = true ->
      GPBinaryClassifier_check_data X y = Ok tt)
  /\ (forall e, NeuralNet_check_data X y = Ok tt -> is_dataset X = false ->
        get_dim y = Raise e ->
        GPBinaryClassifier_check_data X y = Raise e)
  /\ (forall d, NeuralNet_check_data X y = Ok tt -> is_dataset X = false ->
        get_dim y = Ok d ->
        (d = 1 -> GPBinaryClassifier_check_data X y = Ok tt)
        /\ (d <> 1 ->
            GPBinaryClassifier_check_data X y
            = Raise (ValueError "The target data should be 1-dimensional."))).
Proof.
  unfold GPBinaryClassifier_check_data. split; [|split; [|split]].
  - by intros e ->.
  - by intros -> ->.
  - by intros e -> -> ->.
  - intros d -> -> ->. cbn [rbind rmap negb]. split.
    + by intros ->.
    + intros Hd. apply Nat.eqb_neq in Hd. by rewrite Hd.
Qed.
End Classifier.

Lemma GPBinaryClassifier_predict_in_classes_witness :
  Forall (fun label => label ∈ classes_)
    (labels (float32_round half) [quarter; three_quarters; half]).
Proof.
  exact (GPBinaryClassifier_predict_in_classes sample_forward_iter
           (fun _ t => t) (fun _ => ret (vector [])) (fun t => t)
           float32_round sample_mean
           sample_X (sample_classifier half) (sample_classifier half)
           (mk_ndarray [3]
              (labels (float32_round half) [quarter; three_quarters; half]))
           eq_refl).
Defined.

(** Targets of the example are arrays; nothing is a dataset. *)
Definition sample_get_dim (y : ndarray N) : result nat :=
  Ok (length (shape y)).

Lemma GPBinaryClassifier_check_data_cases_witness :
  GPBinaryClassifier_check_data (fun _ _ => Ok tt)
    (fun _ : list (list Qc) => false) sample_get_dim sample_X
    (mk_ndarray [3] [0%N; 1%N; 1%N])
  = Ok tt
  /\ GPBinaryClassifier_check_data (fun _ _ => Ok tt)
       (fun _ : list (list Qc) => false) sample_get_dim sample_X
       (mk_ndarray [3; 1] [0%N; 1%N; 1%N])
     = Raise (ValueError "The target data should be 1-dimensional.").
Proof.
  split.
  - exact (proj1 (proj2 (proj2 (proj2
             (GPBinaryClassifier_check_data_cases (fun _ _ => Ok tt)
                (fun _ : list (list Qc) => false) sample_get_dim sample_X
                (mk_ndarray [3] [0%N; 1%N; 1%N]))))
             1 eq_refl eq_refl eq_refl) eq_refl).
  - refine (proj2 (proj2 (proj2 (proj2
              (GPBinaryClassifier_check_data_cases (fun _ _ => Ok tt)
                 (fun _ : list (list Qc) => false) sample_get_dim sample_X
                 (mk_ndarray [3; 1] [0%N; 1%N; 1%N]))))
              2 eq_refl eq_refl eq_refl) _).
    intros Heq. discriminate Heq.
Defined.
